(** * Order validation and placement pipeline of the futures trading bot

    A shallow embedding of [bot/validators.py], [bot/client.py] and
    [bot/orders.py], followed by the properties of the pipeline.

    Conventions of the embedding.
    - A Python [str] is a [string]; the builtins [str.upper], [str.strip]
      and [float] are embedded on their ASCII fragment (code points below
      128), which is what the command line passes on.
    - A Python [float] is a binary64 number, [spec_float] with precision 53
      and maximal exponent 1024.
    - A raised exception is the [Raise] branch of [result]; code that logs
      or talks to the exchange runs in the monad [M], which collects the
      observable events in order (log records, connector calls, HTTP
      requests, order POSTs).
    - A dict read by key is a [gmap string pyval]; the query parameters that
      are signed keep their insertion order and are an association list. *)

From stdpp Require Import base option list gmap strings.
From Stdlib Require Import ZArith Ascii Floats.SpecFloat Lia.

#[local] Set Warnings "-register-all".
#[local] Open Scope Z_scope.

(** ** Python strings (ASCII fragment) *)

Module PyStr.

Definition code (c : ascii) : Z := Z.of_nat (nat_of_ascii c).

(** [str.isspace] on one ASCII character: TAB, LF, VT, FF, CR, the four
    separators FS, GS, RS, US and the space.  The blanks of code 128 and
    above (U+0085, U+00A0 and the Unicode spaces) lie outside the fragment
    and are not blanks here. *)
Definition is_space (c : ascii) : bool :=
  let n := code c in
  ((9 <=? n) && (n <=? 13)) || ((28 <=? n) && (n <=? 32)).

Definition is_lower (c : ascii) : bool :=
  let n := code c in (97 <=? n) && (n <=? 122).

(** [str.upper] on one ASCII character; a character of code 128 or above
    is left as it is. *)
Definition upper_char (c : ascii) : ascii :=
  if is_lower c then ascii_of_nat (nat_of_ascii c - 32) else c.

(** [s.upper()] *)
Fixpoint upper (s : string) : string :=
  match s with
  | EmptyString => EmptyString
  | String c r => String (upper_char c) (upper r)
  end.

Fixpoint lstrip (s : string) : string :=
  match s with
  | EmptyString => EmptyString
  | String c r => if is_space c then lstrip r else s
  end.

Fixpoint rstrip (s : string) : string :=
  match s with
  | EmptyString => EmptyString
  | String c r =>
      match rstrip r with
      | EmptyString => if is_space c then EmptyString else String c EmptyString
      | r' => String c r'
      end
  end.

(** [s.strip()] *)
Definition strip (s : string) : string := rstrip (lstrip s).

(** [len(s)] *)
Definition len (s : string) : Z := Z.of_nat (String.length s).

(** [s.endswith(suffix)] *)
Definition endswith (s suffix : string) : bool :=
  let n := String.length s in
  let k := String.length suffix in
  (k <=? n)%nat && String.eqb (String.substring (n - k) k s) suffix.

(** Truthiness of a [str]: [not s] holds for the empty string only. *)
Definition is_empty (s : string) : bool :=
  match s with EmptyString => true | _ => false end.

(** A string that does not start with white space. *)
Definition clean_head (s : string) : Prop :=
  match s with
  | EmptyString => True
  | String c _ => is_space c = false
  end.

End PyStr.

(** ** Python floats: the builtin [float(str)] *)

Module PyFloat.

Abbreviation float := spec_float.

Definition prec : Z := 53.
Definition emax : Z := 1024.

Definition nan : float := S754_nan.
Definition inf (neg : bool) : float := S754_infinity neg.
Definition zero : float := S754_zero false.

(** [x <= 0], [x > 0] against the integer zero; every comparison with a
    NaN is false. *)
Definition le_zero (x : float) : bool := SFleb x zero.
Definition gt_zero (x : float) : bool := SFltb zero x.

Definition is_nan (x : float) : bool :=
  match x with S754_nan => true | _ => false end.

Definition is_finite (x : float) : bool :=
  match x with S754_zero _ | S754_finite _ _ _ => true | _ => false end.

(** The binary64 number nearest to [(-1)^neg * m * 10^e], ties to even;
    overflow gives an infinity and underflow a signed zero. *)
Definition of_decimal (neg : bool) (m e : Z) : float :=
  if m =? 0 then S754_zero neg
  else if 0 <=? e then
    binary_normalize prec emax (cond_Zopp neg (m * 10 ^ e)) 0 neg
  else
    let '(q, e', l) := SFdiv_core_binary prec emax m 0 (10 ^ (- e)) 0 in
    binary_round_aux prec emax neg q e' l.

Definition is_digit (c : ascii) : bool :=
  let n := PyStr.code c in (48 <=? n) && (n <=? 57).

Definition digit_val (c : ascii) : Z := PyStr.code c - 48.

(** The C-locale [isspace] that [float] uses to trim its argument. *)
Definition c_isspace (c : ascii) : bool :=
  let n := PyStr.code c in ((9 <=? n) && (n <=? 13)) || (n =? 32).

Definition is_char (a b : ascii) : bool := Ascii.eqb a b.

Fixpoint contains (a : ascii) (s : string) : bool :=
  match s with
  | EmptyString => false
  | String c r => is_char a c || contains a r
  end.

(** Digit-group underscores: allowed only between two digits; they are
    dropped before the number is read. *)
Fixpoint drop_underscores (prev : ascii) (s : string) : option string :=
  match s with
  | EmptyString => if is_char prev "_" then None else Some EmptyString
  | String c r =>
      if is_char c "_" then
        if is_digit prev then drop_underscores c r else None
      else if is_char prev "_" && negb (is_digit c) then None
      else String c <$> drop_underscores c r
  end.

Definition without_underscores (s : string) : option string :=
  if contains "_" s then
    if contains "000" s then None else drop_underscores "000" s
  else Some s.

Fixpoint lskip (s : string) : string :=
  match s with
  | EmptyString => EmptyString
  | String c r => if c_isspace c then lskip r else s
  end.

Fixpoint rskip (s : string) : string :=
  match s with
  | EmptyString => EmptyString
  | String c r =>
      match rskip r with
      | EmptyString => if c_isspace c then EmptyString else String c EmptyString
      | r' => String c r'
      end
  end.

(** Optional sign: [true] for a minus. *)
Definition read_sign (s : string) : bool * string :=
  match s with
  | String "-" r => (true, r)
  | String "+" r => (false, r)
  | _ => (false, s)
  end.

(** Longest prefix of decimal digits: its value, its length, the rest. *)
Fixpoint read_digits (acc : Z) (n : Z) (s : string) : Z * Z * string :=
  match s with
  | String c r =>
      if is_digit c then read_digits (10 * acc + digit_val c) (n + 1) r
      else (acc, n, s)
  | EmptyString => (acc, n, s)
  end.

(** Exponent part: read only when [e] or [E] is followed by an optional
    sign and at least one digit; otherwise nothing is consumed. *)
Definition read_exponent (s : string) : Z * string :=
  match s with
  | String c r =>
      if is_char c "e" || is_char c "E" then
        let '(eneg, r1) := read_sign r in
        let '(v, n, r2) := read_digits 0 0 r1 in
        if n =? 0 then (0, s) else (cond_Zopp eneg v, r2)
      else (0, s)
  | EmptyString => (0, s)
  end.

(** The decimal reader of CPython ([_Py_dg_strtod]): sign, digits with an
    optional point, at least one digit, optional exponent.  [None] when no
    number starts the string. *)
Definition dg_strtod (s : string) : option (float * string) :=
  let '(neg, s1) := read_sign s in
  let '(m1, n1, s2) := read_digits 0 0 s1 in
  let '(m, nfrac, s3) :=
    match s2 with
    | String "." r => let '(m2, n2, r') := read_digits m1 0 r in (m2, n2, r')
    | _ => (m1, 0, s2)
    end in
  if n1 + nfrac =? 0 then None
  else
    let '(e, s4) := read_exponent s3 in
    Some (of_decimal neg m (e - nfrac), s4).

Fixpoint match_nocase (pat s : string) : option string :=
  match pat, s with
  | EmptyString, _ => Some s
  | String p pr, String c r =>
      if is_char (PyStr.upper_char c) (PyStr.upper_char p)
      then match_nocase pr r else None
  | String _ _, EmptyString => None
  end.

(** [_Py_parse_inf_or_nan]: a sign, then [inf], [infinity] or [nan] in
    any letter case. *)
Definition parse_inf_or_nan (s : string) : option (float * string) :=
  let '(neg, s1) := read_sign s in
  match match_nocase "inf" s1 with
  | Some r =>
      match match_nocase "inity" r with
      | Some r' => Some (inf neg, r')
      | None => Some (inf neg, r)
      end
  | None =>
      match match_nocase "nan" s1 with
      | Some r => Some (nan, r)
      | None => None
      end
  end.

Definition ascii_strtod (s : string) : option (float * string) :=
  match dg_strtod s with
  | Some r => Some r
  | None => parse_inf_or_nan s
  end.

(** [float(s)] for a [str] of ASCII characters: [None] stands for the
    [ValueError].  Unicode digits and blanks, which [float] also accepts,
    lie outside the fragment. *)
Definition float_of_str (s : string) : option float :=
  s0 ← without_underscores s;
  let s1 := rskip (lskip s0) in
  match ascii_strtod s1 with
  | Some (x, EmptyString) => Some x
  | _ => None
  end.

End PyFloat.

(** ** Values, exceptions and results *)

(** The Python values that occur in the validated parameters and in the
    JSON bodies of the exchange. *)
Inductive pyval :=
| PNone
| PBool (b : bool)
| PInt (z : Z)
| PFloat (f : PyFloat.float)
| PStr (s : string)
| PList (l : list pyval)
| PDict (d : gmap string pyval).

Abbreviation dict := (gmap string pyval).

(** The exception classes that travel through the pipeline. *)
Inductive exn :=
| ValidationError (msg : string)
| BinanceAPIException (status_code : Z) (message : string)
| BinanceRequestException (message : string)
| OtherException (descr : string).

Inductive result (A : Type) :=
| Ok (a : A)
| Raise (e : exn).
Arguments Ok {A} a.
Arguments Raise {A} e.

Definition rbind {A B} (r : result A) (k : A → result B) : result B :=
  match r with
  | Ok a => k a
  | Raise e => Raise e
  end.

#[global] Instance result_bind : MBind result := λ A B k r, rbind r k.
#[global] Instance result_ret : MRet result := λ A a, Ok a.

Definition is_ok {A} (r : result A) : bool :=
  match r with Ok _ => true | Raise _ => false end.

Definition is_validation_error (e : exn) : bool :=
  match e with ValidationError _ => true | _ => false end.

(** ** bot/validators.py *)

Module Validators.
Import PyStr.

Definition validate_symbol (symbol : string) : result string :=
  if is_empty symbol then Raise (ValidationError "Symbol cannot be empty")
  else
    let symbol := strip (upper symbol) in
    if negb (endswith symbol "USDT") then
      Raise (ValidationError "Symbol must end with 'USDT' for USDT-M futures")
    else if len symbol <? 5 then
      Raise (ValidationError "Symbol is too short")
    else Ok symbol.

Definition validate_side (side : string) : result string :=
  let side := strip (upper side) in
  if negb (String.eqb side "BUY" || String.eqb side "SELL") then
    Raise (ValidationError "Side must be 'BUY' or 'SELL'")
  else Ok side.

Definition validate_order_type (order_type : string) : result string :=
  let order_type := strip (upper order_type) in
  if negb (String.eqb order_type "MARKET" || String.eqb order_type "LIMIT") then
    Raise (ValidationError "Order type must be 'MARKET' or 'LIMIT'")
  else Ok order_type.

Definition validate_quantity (quantity : string) : result PyFloat.float :=
  match PyFloat.float_of_str quantity with
  | None => Raise (ValidationError "Quantity must be a valid number")
  | Some qty =>
      if PyFloat.le_zero qty then
        Raise (ValidationError "Quantity must be greater than 0")
      else Ok qty
  end.

(** [price is None or price == ""] *)
Definition price_missing (price : option string) : bool :=
  match price with
  | None => true
  | Some p => is_empty p
  end.

Definition validate_price (price : option string)
  : result (option PyFloat.float) :=
  match price with
  | None => Ok None
  | Some s =>
      if is_empty s then Ok None
      else
        match PyFloat.float_of_str s with
        | None => Raise (ValidationError "Price must be a valid number")
        | Some p =>
            if PyFloat.le_zero p then
              Raise (ValidationError "Price must be greater than 0")
            else Ok (Some p)
        end
  end.

(** A value of type [Optional[float]] stored in a dict. *)
Definition of_opt_float (o : option PyFloat.float) : pyval :=
  match o with
  | Some f => PFloat f
  | None => PNone
  end.

(** The dict literal that [validate_order_params] starts from. *)
Definition validated_record (symbol side order_type : string)
    (quantity : PyFloat.float) : dict :=
  <["quantity" := PFloat quantity]>
    (<["type" := PStr order_type]>
       (<["side" := PStr side]> (<["symbol" := PStr symbol]> ∅))).

Definition validate_order_params
    (symbol side order_type quantity : string) (price : option string)
  : result dict :=
  v_symbol ← validate_symbol symbol;
  v_side ← validate_side side;
  v_type ← validate_order_type order_type;
  v_quantity ← validate_quantity quantity;
  let validated := validated_record v_symbol v_side v_type v_quantity in
  if String.eqb v_type "LIMIT" then
    if price_missing price then
      Raise (ValidationError "Price is required for LIMIT orders")
    else
      v_price ← validate_price price;
      Ok (<["price" := of_opt_float v_price]> validated)
  else if negb (price_missing price) then
    Raise (ValidationError "Price should not be specified for MARKET orders")
  else Ok validated.

(** A normalising validator returns its own output unchanged. *)
Definition idempotent_on (f : string → result string) : Prop :=
  ∀ s o, f s = Ok o → f o = Ok o.

End Validators.

(** ** Bytes, SHA-256 and HMAC: [hashlib.sha256] and [hmac.new] *)

Module Bytes.

(** A byte is an integer in [0, 256). *)
Abbreviation bytes := (list Z).

Fixpoint of_string (s : string) : bytes :=
  match s with
  | EmptyString => []
  | String c r => PyStr.code c :: of_string r
  end.

(** [s.encode('utf-8')]: one byte per ASCII character. *)
Definition encode_utf8 (s : string) : bytes := of_string s.

Definition hex_digit (upper_case : bool) (n : Z) : ascii :=
  if n <? 10 then ascii_of_nat (Z.to_nat (48 + n))
  else ascii_of_nat (Z.to_nat ((if upper_case then 55 else 87) + n)).

(** Two hexadecimal digits of one byte. *)
Definition hex_byte (upper_case : bool) (b : Z) (rest : string) : string :=
  String (hex_digit upper_case (b / 16))
    (String (hex_digit upper_case (b mod 16)) rest).

(** [digest.hex()]: lowercase hexadecimal. *)
Definition hex_lower (bs : bytes) : string :=
  foldr (hex_byte false) EmptyString bs.

(** Big-endian bytes of the [n]-byte integer [x]. *)
Fixpoint be_bytes (n : nat) (x : Z) : bytes :=
  match n with
  | O => []
  | S k => (x / 256 ^ Z.of_nat k) mod 256 :: be_bytes k x
  end.

Definition be_word (bs : bytes) : Z :=
  foldl (λ acc b, 256 * acc + b) 0 bs.

(** Consecutive chunks of [n] elements; the fuel is the list length. *)
Fixpoint chunks {A} (fuel n : nat) (l : list A) : list (list A) :=
  match fuel with
  | O => []
  | S f =>
      match l with
      | [] => []
      | _ => take n l :: chunks f n (drop n l)
      end
  end.

End Bytes.

Module SHA256.
Import Bytes.

Definition wrap (x : Z) : Z := x mod 2 ^ 32.
Definition add32 (x y : Z) : Z := wrap (x + y).
Definition rotr (n x : Z) : Z :=
  Z.lor (Z.shiftr x n) (wrap (Z.shiftl x (32 - n))).
Definition not32 (x : Z) : Z := Z.lxor x (2 ^ 32 - 1).

Definition Ch (x y z : Z) : Z := Z.lxor (Z.land x y) (Z.land (not32 x) z).
Definition Maj (x y z : Z) : Z :=
  Z.lxor (Z.lxor (Z.land x y) (Z.land x z)) (Z.land y z).
Definition Sigma0 (x : Z) : Z :=
  Z.lxor (Z.lxor (rotr 2 x) (rotr 13 x)) (rotr 22 x).
Definition Sigma1 (x : Z) : Z :=
  Z.lxor (Z.lxor (rotr 6 x) (rotr 11 x)) (rotr 25 x).
Definition sigma0 (x : Z) : Z :=
  Z.lxor (Z.lxor (rotr 7 x) (rotr 18 x)) (Z.shiftr x 3).
Definition sigma1 (x : Z) : Z :=
  Z.lxor (Z.lxor (rotr 17 x) (rotr 19 x)) (Z.shiftr x 10).

(** The first sixty-four primes. *)
Definition primes : list Z :=
  [2; 3; 5; 7; 11; 13; 17; 19; 23; 29; 31; 37; 41; 43; 47; 53;
   59; 61; 67; 71; 73; 79; 83; 89; 97; 101; 103; 107; 109; 113; 127; 131;
   137; 139; 149; 151; 157; 163; 167; 173; 179; 181; 191; 193; 197; 199;
   211; 223; 227; 229; 233; 239; 241; 251; 257; 263; 269; 271; 277; 281;
   283; 293; 307; 311].

(** Integer cube root, one bit at a time from bit [n - 1] down. *)
Fixpoint cbrt_bits (n : nat) (x acc : Z) : Z :=
  match n with
  | O => acc
  | S k =>
      let c := acc + 2 ^ Z.of_nat k in
      if c ^ 3 <=? x then cbrt_bits k x c else cbrt_bits k x acc
  end.

(** Round constants: the first 32 bits of the fractional part of the cube
    root of each prime. *)
Definition K : list Z :=
  Eval vm_compute in map (λ p, wrap (cbrt_bits 40 (p * 2 ^ 96) 0)) primes.

(** Initial hash value: the same for the square roots of the first eight
    primes. *)
Definition H0 : list Z :=
  Eval vm_compute in map (λ p, wrap (Z.sqrt (p * 2 ^ 64))) (take 8 primes).

(** Padding: a one bit, zeros, and the bit length on eight bytes. *)
Definition pad (msg : bytes) : bytes :=
  let n := Z.of_nat (List.length msg) in
  let k := (55 - n) mod 64 in
  msg ++ [128] ++ repeat 0 (Z.to_nat k) ++ be_bytes 8 (8 * n).

Definition nth_word (l : list Z) (i : nat) : Z := nth i l 0.

(** Message schedule, most recent word first. *)
Fixpoint schedule (n : nat) (w : list Z) : list Z :=
  match n with
  | O => w
  | S k =>
      let x := add32 (add32 (sigma1 (nth_word w 1)) (nth_word w 6))
                 (add32 (sigma0 (nth_word w 14)) (nth_word w 15)) in
      schedule k (x :: w)
  end.

Definition round (st : list Z) (kw : Z * Z) : list Z :=
  match st with
  | [a; b; c; d; e; f; g; h] =>
      let t1 := add32 (add32 (add32 h (Sigma1 e)) (add32 (Ch e f g) kw.1)) kw.2 in
      let t2 := add32 (Sigma0 a) (Maj a b c) in
      [add32 t1 t2; a; b; c; add32 d t1; e; f; g]
  | _ => st
  end.

Definition compress (h : list Z) (block : bytes) : list Z :=
  let w16 := map be_word (chunks 16 4 block) in
  let w := rev (schedule 48 (rev w16)) in
  let st := foldl round h (zip K w) in
  zip_with add32 h st.

(** [hashlib.sha256(msg).digest()] *)
Definition sha256 (msg : bytes) : bytes :=
  let padded := pad msg in
  let blocks := chunks (List.length padded) 64 padded in
  List.concat (map (be_bytes 4) (foldl compress H0 blocks)).

End SHA256.

Module HMAC.
Import Bytes.

Definition block_size : nat := 64.

Definition xor_with (c : Z) (key : bytes) : bytes := map (Z.lxor c) key.

(** [hmac.new(key, msg, hashlib.sha256).digest()] *)
Definition hmac_sha256 (key msg : bytes) : bytes :=
  let key := if (block_size <? List.length key)%nat then SHA256.sha256 key else key in
  let key := key ++ repeat 0 (block_size - List.length key)%nat in
  SHA256.sha256
    (xor_with 92 key ++ SHA256.sha256 (xor_with 54 key ++ msg)).

(** [hmac.new(key, msg, hashlib.sha256).hexdigest()] *)
Definition hexdigest (key msg : bytes) : string :=
  hex_lower (hmac_sha256 key msg).

End HMAC.

(** ** [urllib.parse.urlencode] *)

Module UrlEncode.

(** A query parameter value: a [str] or an [int]. *)
Inductive qval :=
| QStr (s : string)
| QInt (z : Z).

(** An ordered mapping: the items of a dict in insertion order. *)
Abbreviation params := (list (string * qval)).

Fixpoint digits_of_pos (fuel : nat) (n : Z) (acc : string) : string :=
  match fuel with
  | O => acc
  | S f =>
      let acc := String (ascii_of_nat (Z.to_nat (48 + n mod 10))) acc in
      if n <? 10 then acc else digits_of_pos f (n / 10) acc
  end.

(** [str(z)] for an [int]. *)
Definition str_of_int (z : Z) : string :=
  let ds := digits_of_pos (S (Z.to_nat (Z.log2 (Z.abs z)))) (Z.abs z) EmptyString in
  if z <? 0 then String "-" ds else ds.

Definition str_of (v : qval) : string :=
  match v with
  | QStr s => s
  | QInt z => str_of_int z
  end.

(** Characters that are never quoted: letters, digits and [_.-~]. *)
Definition always_safe (c : ascii) : bool :=
  let n := PyStr.code c in
  ((65 <=? n) && (n <=? 90)) || ((97 <=? n) && (n <=? 122))
  || ((48 <=? n) && (n <=? 57))
  || (n =? 95) || (n =? 46) || (n =? 45) || (n =? 126).

Definition quote_char (c : ascii) (rest : string) : string :=
  if Ascii.eqb c " " then String "+" rest
  else if always_safe c then String c rest
  else String "%" (Bytes.hex_byte true (PyStr.code c) rest).

(** [quote_plus(s)] *)
Fixpoint quote_plus (s : string) : string :=
  match s with
  | EmptyString => EmptyString
  | String c r => quote_char c (quote_plus r)
  end.

Definition encode_item (kv : string * qval) : string :=
  quote_plus kv.1 +:+ "=" +:+ quote_plus (str_of kv.2).

(** ['&'.join(l)] *)
Fixpoint join_amp (l : list string) : string :=
  match l with
  | [] => EmptyString
  | [x] => x
  | x :: r => x +:+ "&" +:+ join_amp r
  end.

(** [urlencode(params)] *)
Definition urlencode (ps : params) : string :=
  join_amp (map encode_item ps).

End UrlEncode.

(** ** Events and the monad of the connector *)

Inductive level := DEBUG | INFO | WARNING | ERROR.

(** The pieces of a formatted log message: literal text, an interpolated
    value, an interpolated exception. *)
Inductive frag :=
| Lit (s : string)
| Val (v : pyval)
| Num (z : Z)
| Exc (e : exn).

Record http_request := {
  req_url : string;
  req_headers : list (string * string);
  req_params : UrlEncode.params;
  req_timeout : Z
}.

(** What the code reads of a [requests.Response]: the status code, the
    body text and the outcome of [response.json()]. *)
Record http_response := {
  status_code : Z;
  text : string;
  json : result pyval
}.

Inductive method :=
| test_connection_m
| get_symbol_info_m
| place_market_order_m
| place_limit_order_m.

Inductive event :=
| Logged (lvl : level) (msg : list frag)
| Called (m : method)
| HttpGet (r : http_request)
| CreateOrder (order_params : list (string * pyval)).

(** The outside world of one run: the clock and the answers of the
    exchange to [requests.get] and to the library call
    [Client.futures_create_order], which issues the signed order POST. *)
Record exchange := {
  clock_ms : Z;
  requests_get : http_request → result http_response;
  futures_create_order : list (string * pyval) → result dict
}.

(** A computation yields a result or an exception, together with the events
    it produced, in order. *)
Definition M (A : Type) : Type := (result A * list event)%type.

Definition ret {A} (a : A) : M A := (Ok a, []).
Definition raise {A} (e : exn) : M A := (Raise e, []).
Definition bind {A B} (m : M A) (k : A → M B) : M B :=
  match m.1 with
  | Ok a => let r := k a in (r.1, m.2 ++ r.2)
  | Raise e => (Raise e, m.2)
  end.
Definition emit (ev : event) : M unit := (Ok tt, [ev]).
Definition lift {A} (r : result A) : M A := (r, []).

(** [try: body  except Exception as e: handler e] *)
Definition try_except {A} (body : M A) (handler : exn → M A) : M A :=
  match body.1 with
  | Ok a => (Ok a, body.2)
  | Raise e => let r := handler e in (r.1, body.2 ++ r.2)
  end.

#[global] Instance M_bind : MBind M := λ A B k m, bind m k.
#[global] Instance M_ret : MRet M := λ A a, ret a.

Definition log (lvl : level) (msg : list frag) : M unit := emit (Logged lvl msg).

(** The connector calls made in a trace. *)
Definition calls (t : list event) : list method :=
  omap (λ ev, match ev with Called m => Some m | _ => None end) t.

(** The HTTP GET requests sent in a trace. *)
Definition gets (t : list event) : list http_request :=
  omap (λ ev, match ev with HttpGet r => Some r | _ => None end) t.

(** The order POSTs issued in a trace. *)
Definition posts (t : list event) : list (list (string * pyval)) :=
  omap (λ ev, match ev with CreateOrder p => Some p | _ => None end) t.

Definition py_eq_str (v : pyval) (s : string) : bool :=
  match v with
  | PStr x => String.eqb x s
  | _ => false
  end.

(** [d[k]]: a [KeyError] when the key is absent. *)
Definition getitem (d : dict) (k : string) : result pyval :=
  match d !! k with
  | Some v => Ok v
  | None => Raise (OtherException "KeyError")
  end.

(** [d.get(k, dflt)] *)
Definition get_or (d : dict) (k : string) (dflt : pyval) : pyval :=
  default dflt (d !! k).

(** [d[k]] where the value is used as a [str]: the symbol and the side of
    the validated parameters, which the validators return as strings. *)
Definition getitem_str (d : dict) (k : string) : result string :=
  match d !! k with
  | Some (PStr s) => Ok s
  | Some _ => Raise (OtherException "TypeError")
  | None => Raise (OtherException "KeyError")
  end.

(** Truthiness of an [Optional[Dict]]: [None] and the empty dict are falsy. *)
Definition falsy (o : option dict) : bool :=
  match o with
  | None => true
  | Some d => bool_decide (dom d = (∅ : gset string))
  end.

(** ** bot/client.py *)

Record BinanceTestnetClient := {
  api_key : string;
  api_secret : string;
  net : exchange
}.

Module Client.
Import UrlEncode.

Definition TESTNET_BASE_URL : string := "https://testnet.binancefuture.com".

Definition _generate_signature (self : BinanceTestnetClient) (ps : params)
  : string :=
  let query_string := urlencode ps in
  HMAC.hexdigest (Bytes.encode_utf8 (api_secret self))
                 (Bytes.encode_utf8 query_string).

(** The request [test_connection] sends: the account endpoint, the API key
    header, the timestamp and the signature of the timestamp. *)
Definition account_request (self : BinanceTestnetClient) : http_request :=
  let url := TESTNET_BASE_URL +:+ "/fapi/v2/account" in
  let timestamp := clock_ms (net self) in
  let ps := [("timestamp", QInt timestamp)] in
  let ps := ps ++ [("signature", QStr (_generate_signature self ps))] in
  let headers := [("X-MBX-APIKEY", api_key self)] in
  {| req_url := url; req_headers := headers;
     req_params := ps; req_timeout := 10 |}.

Definition test_connection (self : BinanceTestnetClient) : M bool :=
  _ ← emit (Called test_connection_m);
  try_except
    (_ ← log INFO [Lit "Testing API connection..."];
     let req := account_request self in
     _ ← emit (HttpGet req);
     response ← lift (requests_get (net self) req);
     if status_code response =? 200 then
       _ ← log INFO [Lit "API connection successful"];
       ret true
     else
       _ ← log ERROR [Lit "API connection failed: ";
                      Num (status_code response); Lit " - ";
                      Lit (text response)];
       ret false)
    (λ e,
       _ ← log ERROR [Lit "Connection test failed: "; Exc e];
       ret false).

(** [data.get('symbols', [])] on the decoded JSON body. *)
Definition symbols_of (data : pyval) : result pyval :=
  match data with
  | PDict d => Ok (get_or d "symbols" (PList []))
  | _ => Raise (OtherException "AttributeError")
  end.

Fixpoint chars_of (s : string) : list pyval :=
  match s with
  | EmptyString => []
  | String c r => PStr (String c EmptyString) :: chars_of r
  end.

(** The values a [for] loop visits: the elements of a list, the keys of
    a dict, the characters of a string.  The loop of [get_symbol_info]
    fails on the first key or character, so their order does not matter. *)
Definition iterate (v : pyval) : result (list pyval) :=
  match v with
  | PList l => Ok l
  | PDict d => Ok (PStr <$> (map_to_list d).*1)
  | PStr s => Ok (chars_of s)
  | _ => Raise (OtherException "TypeError")
  end.

(** The loop of [get_symbol_info]: the first entry whose ['symbol'] is
    the requested one. *)
Fixpoint scan_symbols (symbol : string) (l : list pyval) : M (option dict) :=
  match l with
  | [] =>
      _ ← log WARNING [Lit "Symbol "; Lit symbol;
                       Lit " not found in exchange info"];
      ret None
  | s :: r =>
      match s with
      | PDict d =>
          v ← lift (getitem d "symbol");
          if py_eq_str v symbol then
            _ ← log DEBUG [Lit "Symbol info retrieved: "; Val s];
            ret (Some d)
          else scan_symbols symbol r
      | _ => raise (OtherException "TypeError")
      end
  end.

Definition get_symbol_info (self : BinanceTestnetClient) (symbol : string)
  : M (option dict) :=
  _ ← emit (Called get_symbol_info_m);
  try_except
    (_ ← log DEBUG [Lit "Fetching symbol info for "; Lit symbol];
     let url := TESTNET_BASE_URL +:+ "/fapi/v1/exchangeInfo" in
     let req := {| req_url := url; req_headers := [];
                   req_params := []; req_timeout := 10 |} in
     _ ← emit (HttpGet req);
     response ← lift (requests_get (net self) req);
     if status_code response =? 200 then
       data ← lift (json response);
       syms ← lift (symbols_of data);
       l ← lift (iterate syms);
       scan_symbols symbol l
     else
       _ ← log ERROR [Lit "Failed to get exchange info: ";
                      Num (status_code response)];
       ret None)
    (λ e,
       _ ← log ERROR [Lit "Error fetching symbol info: "; Exc e];
       ret None).

(** The three [except] clauses of the order methods: log and re-raise. *)
Definition log_and_reraise {A} (what : string) (e : exn) : M A :=
  match e with
  | BinanceAPIException sc msg =>
      _ ← log ERROR [Lit "Binance API error: "; Num sc; Lit " - "; Lit msg];
      raise e
  | BinanceRequestException _ =>
      _ ← log ERROR [Lit "Binance request error: "; Exc e];
      raise e
  | _ =>
      _ ← log ERROR [Lit "Unexpected error placing "; Lit what;
                     Lit " order: "; Exc e];
      raise e
  end.

(** The [order_params] dict of [place_market_order], in insertion order. *)
Definition market_order_params (self : BinanceTestnetClient)
    (symbol side : string) (quantity : pyval) : list (string * pyval) :=
  [("symbol", PStr symbol); ("side", PStr side);
   ("type", PStr "MARKET"); ("quantity", quantity);
   ("timestamp", PInt (clock_ms (net self)))].

(** The [order_params] dict of [place_limit_order], in insertion order. *)
Definition limit_order_params (self : BinanceTestnetClient)
    (symbol side : string) (quantity price : pyval) (time_in_force : string)
  : list (string * pyval) :=
  [("symbol", PStr symbol); ("side", PStr side);
   ("type", PStr "LIMIT"); ("quantity", quantity);
   ("price", price); ("timeInForce", PStr time_in_force);
   ("timestamp", PInt (clock_ms (net self)))].

Definition place_market_order (self : BinanceTestnetClient)
    (symbol side : string) (quantity : pyval) : M dict :=
  _ ← emit (Called place_market_order_m);
  try_except
    (_ ← log INFO [Lit "Placing MARKET order: "; Lit side; Lit " ";
                   Val quantity; Lit " "; Lit symbol];
     let order_params := market_order_params self symbol side quantity in
     _ ← log DEBUG [Lit "Order parameters: ";
                    Val (PDict (list_to_map order_params))];
     _ ← emit (CreateOrder order_params);
     response ← lift (futures_create_order (net self) order_params);
     _ ← log INFO [Lit "Market order placed successfully. Order ID: ";
                   Val (get_or response "orderId" PNone)];
     _ ← log DEBUG [Lit "Full order response: "; Val (PDict response)];
     ret response)
    (log_and_reraise "market").

Definition place_limit_order (self : BinanceTestnetClient)
    (symbol side : string) (quantity price : pyval) (time_in_force : string)
  : M dict :=
  _ ← emit (Called place_limit_order_m);
  try_except
    (_ ← log INFO [Lit "Placing LIMIT order: "; Lit side; Lit " ";
                   Val quantity; Lit " "; Lit symbol; Lit " @ "; Val price];
     let order_params :=
       limit_order_params self symbol side quantity price time_in_force in
     _ ← log DEBUG [Lit "Order parameters: ";
                    Val (PDict (list_to_map order_params))];
     _ ← emit (CreateOrder order_params);
     response ← lift (futures_create_order (net self) order_params);
     _ ← log INFO [Lit "Limit order placed successfully. Order ID: ";
                   Val (get_or response "orderId" PNone)];
     _ ← log DEBUG [Lit "Full order response: "; Val (PDict response)];
     ret response)
    (log_and_reraise "limit").

End Client.

(** ** bot/orders.py *)

Record OrderManager := { client : BinanceTestnetClient }.

Module Orders.
Import Validators.

(** ["=" * 60] *)
Definition rule : string :=
  Eval vm_compute in foldr String EmptyString (replicate 60 "="%char).

Definition banner (title : string) : M unit :=
  _ ← log INFO [Lit rule];
  _ ← log INFO [Lit title];
  log INFO [Lit rule].

(** The sentinel logged for a field the response does not have. *)
Definition sentinel : pyval := PStr "N/A".

(** [v in ['0', 0, '', None]], with Python's equality: [False], [0] and
    both float zeros equal the integer zero. *)
Definition blank_avg_price (v : pyval) : bool :=
  match v with
  | PNone => true
  | PStr s => String.eqb s "0" || String.eqb s ""
  | PInt z => z =? 0
  | PBool b => negb b
  | PFloat f => SFeqb f PyFloat.zero
  | _ => false
  end.

Definition log_field (label : string) (response : dict) (key : string)
  : M unit :=
  log INFO [Lit label; Val (get_or response key sentinel)].

Definition _log_order_response (self : OrderManager) (response : dict)
  : M unit :=
  _ ← banner "ORDER RESPONSE";
  _ ← log_field "Order ID:       " response "orderId";
  _ ← log_field "Client Order ID: " response "clientOrderId";
  _ ← log_field "Symbol:         " response "symbol";
  _ ← log_field "Status:         " response "status";
  _ ← log_field "Type:           " response "type";
  _ ← log_field "Side:           " response "side";
  _ ← log_field "Price:          " response "price";
  _ ← log_field "Original Qty:   " response "origQty";
  _ ← log_field "Executed Qty:   " response "executedQty";
  _ ← match response !! "avgPrice" with
      | Some v =>
          if negb (blank_avg_price v)
          then log INFO [Lit "Average Price:  "; Val v]
          else ret tt
      | None => ret tt
      end;
  _ ← log_field "Time in Force:  " response "timeInForce";
  _ ← log_field "Update Time:    " response "updateTime";
  log INFO [Lit rule].

Definition _place_market_order (self : OrderManager) (params : dict)
  : M dict :=
  _ ← banner "MARKET ORDER REQUEST";
  v ← lift (getitem params "symbol");
  _ ← log INFO [Lit "Symbol:   "; Val v];
  v ← lift (getitem params "side");
  _ ← log INFO [Lit "Side:     "; Val v];
  v ← lift (getitem params "quantity");
  _ ← log INFO [Lit "Quantity: "; Val v];
  _ ← log INFO [Lit rule];
  symbol ← lift (getitem_str params "symbol");
  side ← lift (getitem_str params "side");
  quantity ← lift (getitem params "quantity");
  response ← Client.place_market_order (client self) symbol side quantity;
  _ ← _log_order_response self response;
  ret response.

Definition _place_limit_order (self : OrderManager) (params : dict)
  : M dict :=
  _ ← banner "LIMIT ORDER REQUEST";
  v ← lift (getitem params "symbol");
  _ ← log INFO [Lit "Symbol:   "; Val v];
  v ← lift (getitem params "side");
  _ ← log INFO [Lit "Side:     "; Val v];
  v ← lift (getitem params "quantity");
  _ ← log INFO [Lit "Quantity: "; Val v];
  v ← lift (getitem params "price");
  _ ← log INFO [Lit "Price:    "; Val v];
  _ ← log INFO [Lit rule];
  symbol ← lift (getitem_str params "symbol");
  side ← lift (getitem_str params "side");
  quantity ← lift (getitem params "quantity");
  price ← lift (getitem params "price");
  response ← Client.place_limit_order (client self) symbol side quantity
               price "GTC";
  _ ← _log_order_response self response;
  ret response.

Definition place_order (self : OrderManager)
    (symbol side order_type quantity : string) (price : option string)
  : M dict :=
  _ ← log INFO [Lit "Validating order parameters..."];
  params ← lift (validate_order_params symbol side order_type quantity price);
  p_type ← lift (getitem params "type");
  p_side ← lift (getitem params "side");
  p_quantity ← lift (getitem params "quantity");
  p_symbol ← lift (getitem params "symbol");
  _ ← log INFO [Lit "Order validated: "; Val p_type; Lit " "; Val p_side;
                Lit " "; Val p_quantity; Lit " "; Val p_symbol];
  sym ← lift (getitem_str params "symbol");
  symbol_info ← Client.get_symbol_info (client self) sym;
  if falsy symbol_info then
    raise (ValidationError
             ("Symbol " +:+ sym +:+ " not found or not tradable"))
  else
    let info := default ∅ symbol_info in
    if negb (py_eq_str (get_or info "status" PNone) "TRADING") then
      raise (ValidationError
               ("Symbol " +:+ sym +:+ " is not currently trading"))
    else
      p_type ← lift (getitem params "type");
      if py_eq_str p_type "MARKET"
      then _place_market_order self params
      else _place_limit_order self params.

(** The normalised order result the specification describes: the twelve
    fields of the response, each absent one replaced by the sentinel. *)
Definition order_result_fields : list string :=
  ["orderId"; "clientOrderId"; "symbol"; "status"; "type"; "side";
   "price"; "origQty"; "executedQty"; "avgPrice"; "timeInForce";
   "updateTime"].

(** The label and the key of the field lines of [_log_order_response],
    the conditional average price apart. *)
Definition logged_fields : list (string * string) :=
  [("Order ID:       ", "orderId"); ("Client Order ID: ", "clientOrderId");
   ("Symbol:         ", "symbol"); ("Status:         ", "status");
   ("Type:           ", "type"); ("Side:           ", "side");
   ("Price:          ", "price"); ("Original Qty:   ", "origQty");
   ("Executed Qty:   ", "executedQty"); ("Time in Force:  ", "timeInForce");
   ("Update Time:    ", "updateTime")]%string.

Definition spec_normalize (response : dict) : dict :=
  list_to_map ((λ k, (k, get_or response k sentinel)) <$> order_result_fields).

End Orders.

(** ** Sample exchanges for the scenarios *)

Module Scenario.

(** An instrument entry of the exchange information. *)
Definition instrument (symbol status : string) : pyval :=
  PDict (<["status" := PStr status]> (<["symbol" := PStr symbol]> ∅)).

(** An exchange that answers every GET with status 200 and the given
    instrument list, and every order POST with [reply]. *)
Definition exchange_with (instruments : list pyval) (reply : result dict)
  : exchange :=
  {| clock_ms := 1700000000000;
     requests_get := λ _,
       Ok {| status_code := 200; text := "";
             json := Ok (PDict (<["symbols" := PList instruments]> ∅)) |};
     futures_create_order := λ _, reply |}.

(** An exchange whose every GET answers with the given status code. *)
Definition exchange_status (code : Z) : exchange :=
  {| clock_ms := 1700000000000;
     requests_get := λ _,
       Ok {| status_code := code; text := "";
             json := Raise (OtherException "JSONDecodeError") |};
     futures_create_order := λ _, Raise (BinanceRequestException "offline") |}.

(** An exchange that cannot be reached. *)
Definition exchange_down : exchange :=
  {| clock_ms := 1700000000000;
     requests_get := λ _, Raise (OtherException "ConnectionError");
     futures_create_order := λ _, Raise (BinanceRequestException "offline") |}.

(** A short acknowledgement of an order: three fields only. *)
Definition short_reply : dict :=
  <["status" := PStr "NEW"]>
    (<["symbol" := PStr "BTCUSDT"]> (<["orderId" := PInt 12345]> ∅)).

Definition manager (ex : exchange) : OrderManager :=
  {| client := {| api_key := "key"; api_secret := "secret"; net := ex |} |}.

End Scenario.

(** ** bot/client.py: the ticker price *)

Module PriceFeed.
Import UrlEncode Client.

(** [float(z)] for an [int]: the nearest binary64 number, and an
    [OverflowError] when the integer is too large for one. *)
Definition float_of_int (z : Z) : result PyFloat.float :=
  match binary_normalize PyFloat.prec PyFloat.emax z 0 false with
  | S754_infinity _ => Raise (OtherException "OverflowError")
  | x => Ok x
  end.

(** [float(v)] for a decoded JSON value. *)
Definition py_float (v : pyval) : result PyFloat.float :=
  match v with
  | PStr s =>
      match PyFloat.float_of_str s with
      | Some x => Ok x
      | None => Raise (OtherException "ValueError")
      end
  | PFloat x => Ok x
  | PInt z => float_of_int z
  | PBool b => float_of_int (if b then 1 else 0)
  | PNone | PList _ | PDict _ => Raise (OtherException "TypeError")
  end.

(** [data[k]] for a string key: only a dict can be subscripted by one. *)
Definition subscript (data : pyval) (k : string) : result pyval :=
  match data with
  | PDict d => getitem d k
  | _ => Raise (OtherException "TypeError")
  end.

(** The request of [get_symbol_info]. *)
Definition exchange_info_request : http_request :=
  {| req_url := TESTNET_BASE_URL +:+ "/fapi/v1/exchangeInfo";
     req_headers := []; req_params := []; req_timeout := 10 |}.

(** The request of [get_current_price]. *)
Definition ticker_request (symbol : string) : http_request :=
  {| req_url := TESTNET_BASE_URL +:+ "/fapi/v1/ticker/price";
     req_headers := []; req_params := [("symbol", QStr symbol)];
     req_timeout := 10 |}.

(** [get_current_price]; unlike the methods of the order pipeline it is
    not recorded as a connector call. *)
Definition get_current_price (self : BinanceTestnetClient) (symbol : string)
  : M (option PyFloat.float) :=
  try_except
    (let req := ticker_request symbol in
     _ ← emit (HttpGet req);
     response ← lift (requests_get (net self) req);
     if status_code response =? 200 then
       data ← lift (json response);
       v ← lift (subscript data "price");
       price ← lift (py_float v);
       _ ← log DEBUG [Lit "Current price for "; Lit symbol; Lit ": ";
                      Val (PFloat price)];
       ret (Some price)
     else
       _ ← log ERROR [Lit "Failed to get price: ";
                      Num (status_code response)];
       ret None)
    (λ e,
       _ ← log ERROR [Lit "Error fetching current price: "; Exc e];
       ret None).

End PriceFeed.

(** ** bot/orders.py: the console summary *)

Module Summary.
Import Orders.

(** ["=" * 70] *)
Definition rule70 : string :=
  Eval vm_compute in foldr String EmptyString (replicate 70 "="%char).

Definition newline : string := String (ascii_of_nat 10) EmptyString.

(** [print_order_summary]: the arguments of its [print] calls, in order. *)
Definition print_order_summary (self : OrderManager) (response : dict)
  : list (list frag) :=
  [[Lit (newline +:+ rule70)];
   [Lit "ORDER PLACED SUCCESSFULLY"];
   [Lit rule70];
   [Lit "Order ID:        "; Val (get_or response "orderId" PNone)];
   [Lit "Symbol:          "; Val (get_or response "symbol" PNone)];
   [Lit "Side:            "; Val (get_or response "side" PNone)];
   [Lit "Type:            "; Val (get_or response "type" PNone)];
   [Lit "Status:          "; Val (get_or response "status" PNone)];
   [Lit "Quantity:        "; Val (get_or response "origQty" PNone)]]
  ++ (if py_eq_str (get_or response "type" PNone) "LIMIT"
      then [[Lit "Price:           "; Val (get_or response "price" PNone)]]
      else [])
  ++ [[Lit "Executed Qty:    ";
       Val (get_or response "executedQty" (PStr "0"))]]
  ++ match response !! "avgPrice" with
     | Some v =>
         if negb (blank_avg_price v)
         then [[Lit "Average Price:   "; Val v]]
         else []
     | None => []
     end
  ++ [[Lit rule70]; []].

End Summary.

(** ** Shapes of strings *)

Module Shape.

Fixpoint all_chars (P : ascii → bool) (s : string) : bool :=
  match s with
  | EmptyString => true
  | String c r => P c && all_chars P r
  end.

(** A lowercase hexadecimal digit. *)
Definition is_lower_hex (c : ascii) : bool :=
  let n := PyStr.code c in
  ((48 <=? n) && (n <=? 57)) || ((97 <=? n) && (n <=? 102)).

(** A character that may occur in a quoted query component. *)
Definition is_quoted_char (c : ascii) : bool :=
  UrlEncode.always_safe c || Ascii.eqb c "+" || Ascii.eqb c "%".

(** A character of an encoded item: a quoted character or the equals
    sign. *)
Definition is_item_char (c : ascii) : bool :=
  is_quoted_char c || Ascii.eqb c "=".

(** An entry of the instrument list that the scan passes over: a dict
    whose ['symbol'] is not the requested one. *)
Definition passed_over (symbol : string) (entry : pyval) : Prop :=
  ∃ d v, entry = PDict d ∧ d !! "symbol" = Some v
         ∧ py_eq_str v symbol = false.

(** An entry on which the scan fails: not a dict, or a dict without a
    ['symbol']. *)
Definition malformed (entry : pyval) : Prop :=
  match entry with
  | PDict d => d !! "symbol" = None
  | _ => True
  end.

End Shape.

(** * Properties *)

(** ** Strings: [upper] and [strip] are idempotent and commute *)

Section StringFacts.
Import PyStr.

Ltac by_cases_on c :=
  destruct c as [[] [] [] [] [] [] [] []]; vm_compute; reflexivity.

Lemma is_space_upper_char c : is_space (upper_char c) = is_space c.
Proof. by_cases_on c. Qed.

Lemma upper_char_idem c : upper_char (upper_char c) = upper_char c.
Proof. by_cases_on c. Qed.

Lemma upper_idem s : upper (upper s) = upper s.
Proof.
  induction s as [|c r IH]; simpl; [reflexivity|].
  by rewrite upper_char_idem, IH.
Qed.

Lemma upper_lstrip s : upper (lstrip s) = lstrip (upper s).
Proof.
  induction s as [|c r IH]; simpl; [reflexivity|].
  rewrite is_space_upper_char. by destruct (is_space c).
Qed.

Lemma upper_rstrip s : upper (rstrip s) = rstrip (upper s).
Proof.
  induction s as [|c r IH]; simpl; [reflexivity|].
  rewrite <- IH, is_space_upper_char.
  destruct (rstrip r); simpl; [by destruct (is_space c)|reflexivity].
Qed.

Lemma upper_strip s : upper (strip s) = strip (upper s).
Proof. unfold strip. by rewrite upper_rstrip, upper_lstrip. Qed.

Lemma lstrip_clean_head s : clean_head (lstrip s).
Proof.
  induction s as [|c r IH]; simpl; [exact I|].
  destruct (is_space c) eqn:E; [exact IH|exact E].
Qed.

Lemma rstrip_clean_head s : clean_head s → clean_head (rstrip s).
Proof.
  destruct s as [|c r]; simpl; [done|]. intros E.
  destruct (rstrip r); simpl; [by rewrite E|done].
Qed.

Lemma lstrip_id s : clean_head s → lstrip s = s.
Proof. destruct s as [|c r]; simpl; [done|]. by intros ->. Qed.

Lemma rstrip_idem s : rstrip (rstrip s) = rstrip s.
Proof.
  induction s as [|c r IH]; simpl; [reflexivity|].
  destruct (rstrip r) as [|c' r'] eqn:E.
  - destruct (is_space c) eqn:Ec; simpl; [reflexivity|by rewrite Ec].
  - change (rstrip (String c (String c' r'))
            = String c (String c' r')).
    simpl in IH. simpl.
    destruct (rstrip r') eqn:E'.
    + destruct (is_space c'); [discriminate IH|]. by rewrite IH.
    + by rewrite IH.
Qed.

Lemma strip_idem s : strip (strip s) = strip s.
Proof.
  unfold strip.
  rewrite (lstrip_id (rstrip (lstrip s))).
  - apply rstrip_idem.
  - apply rstrip_clean_head, lstrip_clean_head.
Qed.

(** The normal form computed by the validators, [s.upper().strip()]. *)
Lemma normalise_idem s : strip (upper (strip (upper s))) = strip (upper s).
Proof. by rewrite upper_strip, upper_idem, strip_idem. Qed.

End StringFacts.

(** ** The validators *)

Section ValidatorFacts.
Import PyStr Validators.

Lemma validate_symbol_ok s o :
  validate_symbol s = Ok o →
  o = strip (upper s) ∧ endswith o "USDT" = true ∧ 5 ≤ len o.
Proof.
  unfold validate_symbol. intros H.
  destruct (is_empty s); [discriminate|].
  destruct (endswith (strip (upper s)) "USDT") eqn:E1; [|discriminate].
  simpl in H.
  destruct (len (strip (upper s)) <? 5) eqn:E2; [discriminate|].
  inversion H; subst o. repeat split; [done|]. by apply Z.ltb_ge.
Qed.

Lemma validate_side_ok s o :
  validate_side s = Ok o →
  o = strip (upper s) ∧ (o = "BUY" ∨ o = "SELL")%string.
Proof.
  unfold validate_side. intros H.
  destruct (String.eqb (strip (upper s)) "BUY") eqn:E1.
  - inversion H; subst o. split; [done|]. left. by apply String.eqb_eq.
  - destruct (String.eqb (strip (upper s)) "SELL") eqn:E2; [|discriminate].
    inversion H; subst o. split; [done|]. right. by apply String.eqb_eq.
Qed.

Lemma validate_order_type_ok s o :
  validate_order_type s = Ok o →
  o = strip (upper s) ∧ (o = "MARKET" ∨ o = "LIMIT")%string.
Proof.
  unfold validate_order_type. intros H.
  destruct (String.eqb (strip (upper s)) "MARKET") eqn:E1.
  - inversion H; subst o. split; [done|]. left. by apply String.eqb_eq.
  - destruct (String.eqb (strip (upper s)) "LIMIT") eqn:E2; [|discriminate].
    inversion H; subst o. split; [done|]. right. by apply String.eqb_eq.
Qed.

Lemma validate_price_missing p :
  price_missing p = true → validate_price p = Ok None.
Proof. destruct p as [[|c r]|]; simpl; done. Qed.

Lemma validate_price_given p :
  price_missing p = false → validate_price p ≠ Ok None.
Proof.
  destruct p as [[|c r]|]; simpl; try done. intros _.
  destruct (PyFloat.float_of_str (String c r)) as [x|]; [|done].
  by destruct (PyFloat.le_zero x).
Qed.

(** For a number, [not (x <= 0)] is [x > 0]; for a NaN both are false. *)
Lemma le_zero_gt_zero x :
  PyFloat.is_nan x = false →
  PyFloat.le_zero x = negb (PyFloat.gt_zero x).
Proof. by destruct x as [[]|[]| |[] m e]. Qed.

(** The validated record without a price. *)
Lemma validated_shape s d ty q p params :
  validate_order_params s d ty q p = Ok params →
  ∃ sym sd t qty,
    validate_symbol s = Ok sym ∧ validate_side d = Ok sd ∧
    validate_order_type ty = Ok t ∧ validate_quantity q = Ok qty ∧
    let base := validated_record sym sd t qty in
    (t = "MARKET"%string ∧ price_missing p = true ∧ params = base) ∨
    (t = "LIMIT"%string ∧ price_missing p = false ∧
     ∃ x, validate_price p = Ok (Some x) ∧
          params = <["price" := PFloat x]> base).
Proof.
  unfold validate_order_params, mbind, result_bind, rbind. intros H.
  destruct (validate_symbol s) as [sym|] eqn:E1; [|discriminate].
  destruct (validate_side d) as [sd|] eqn:E2; [|discriminate].
  destruct (validate_order_type ty) as [t|] eqn:E3; [|discriminate].
  destruct (validate_quantity q) as [qty|] eqn:E4; [|discriminate].
  exists sym, sd, t, qty. repeat split.
  destruct (validate_order_type_ok _ _ E3) as [_ [-> | ->]]; simpl in H.
  - left. destruct (price_missing p); simpl in H; [|discriminate].
    by inversion H.
  - right. destruct (price_missing p) eqn:Ep; [discriminate|].
    repeat split.
    destruct (validate_price p) as [[x|]|] eqn:E5; try discriminate.
    + exists x. split; [done|]. by inversion H.
    + by apply validate_price_given in Ep.
Qed.

End ValidatorFacts.

Section ValidatorClaims.
Import PyStr Validators.

(** C9. [validate("btcusdt","buy","market","0.01", None)] succeeds with the
    record [{symbol: "BTCUSDT", side: "BUY", type: "MARKET", quantity: 0.01}]
    and no price field, where 0.01 is the binary64 number
    5764607523034235 * 2^-59; [validate("ETHUSDT","SELL","LIMIT","0.01",
    "2500.5")] succeeds with price 2500.5, the binary64 number
    5498657650507776 * 2^-41. *)
Theorem validate_scenarios :
  let qty := S754_finite false 5764607523034235 (-59) in
  let market : dict :=
    <["symbol" := PStr "BTCUSDT"]>
      (<["side" := PStr "BUY"]>
         (<["type" := PStr "MARKET"]> (<["quantity" := PFloat qty]> ∅))) in
  let limit : dict :=
    <["symbol" := PStr "ETHUSDT"]>
      (<["side" := PStr "SELL"]>
         (<["type" := PStr "LIMIT"]>
            (<["quantity" := PFloat qty]>
               (<["price" := PFloat (S754_finite false 5498657650507776 (-41))]>
                  ∅)))) in
  validate_order_params "btcusdt" "buy" "market" "0.01" None = Ok market
  ∧ market !! "price" = None
  ∧ PyFloat.of_decimal false 1 (-2) = qty
  ∧ validate_order_params "ETHUSDT" "SELL" "LIMIT" "0.01" (Some "2500.5")
    = Ok limit
  ∧ PyFloat.of_decimal false 25005 (-1)
    = S754_finite false 5498657650507776 (-41).
Proof. repeat split; by vm_compute. Qed.

Lemma validate_symbol_idempotent : idempotent_on validate_symbol.
Proof.
  intros s o H. destruct (validate_symbol_ok _ _ H) as (-> & E1 & E2).
  unfold validate_symbol. rewrite normalise_idem, E1. simpl.
  destruct (strip (upper s)) as [|c r] eqn:E; [unfold len in E2; simpl in E2; lia|].
  simpl. by destruct (len (String c r) <? 5) eqn:E3; [apply Z.ltb_lt in E3; lia|].
Qed.

Lemma validate_side_idempotent : idempotent_on validate_side.
Proof.
  intros s o H. by destruct (validate_side_ok _ _ H) as (_ & [-> | ->]).
Qed.

Lemma validate_order_type_idempotent : idempotent_on validate_order_type.
Proof.
  intros s o H. by destruct (validate_order_type_ok _ _ H) as (_ & [-> | ->]).
Qed.

(** C10. The normalising validators are idempotent: whenever
    [validate_symbol], [validate_side] or [validate_order_type] accepts a
    string, it accepts its own output and returns it unchanged. *)
Theorem validators_idempotent :
  (∀ s o, validate_symbol s = Ok o → validate_symbol o = Ok o) ∧
  (∀ s o, validate_side s = Ok o → validate_side o = Ok o) ∧
  (∀ s o, validate_order_type s = Ok o → validate_order_type o = Ok o).
Proof.
  split; [exact validate_symbol_idempotent|].
  split; [exact validate_side_idempotent|exact validate_order_type_idempotent].
Qed.

Lemma validators_idempotent_witness :
  validate_symbol "BTCUSDT" = Ok "BTCUSDT"%string ∧
  validate_side "SELL" = Ok "SELL"%string ∧
  validate_order_type "LIMIT" = Ok "LIMIT"%string.
Proof.
  destruct validators_idempotent as (H1 & H2 & H3).
  split; [apply (H1 " btcusdt "); reflexivity|].
  split; [apply (H2 "sell"); reflexivity|apply (H3 " Limit"); reflexivity].
Defined.

End ValidatorClaims.

Section ValidationOrder.
Import PyStr Validators.

(** C1, counterexample.  A MARKET order that passes the checks of symbol,
    side, order type and quantity and carries the price "abc", which does
    not parse as a number and which [validate_price] rejects with the
    price-parse failure: the code reports the cross-field failure, not the
    price-parse one. *)
Lemma validation_order_counterexample :
  is_ok (validate_symbol "BTCUSDT") = true
  ∧ is_ok (validate_side "BUY") = true
  ∧ validate_order_type "MARKET" = Ok "MARKET"%string
  ∧ is_ok (validate_quantity "1") = true
  ∧ PyFloat.float_of_str "abc" = None
  ∧ validate_price (Some "abc")
    = Raise (ValidationError "Price must be a valid number")
  ∧ validate_order_params "BTCUSDT" "BUY" "MARKET" "1" (Some "abc")
    = Raise (ValidationError "Price should not be specified for MARKET orders")
  ∧ validate_order_params "BTCUSDT" "BUY" "MARKET" "1" (Some "abc")
    ≠ Raise (ValidationError "Price must be a valid number").
Proof.
  assert (H : validate_order_params "BTCUSDT" "BUY" "MARKET" "1" (Some "abc")
    = Raise (ValidationError "Price should not be specified for MARKET orders"))
    by (vm_compute; reflexivity).
  repeat (split; [vm_compute; reflexivity|]).
  rewrite H. discriminate.
Qed.

(** C1, amended.  [validate_order_params] runs its checks in the order
    symbol, side, order type, quantity, and the failure of one of them is
    reported as soon as the checks before it pass.  Once the four pass, the
    price is looked at according to the order type: a MARKET order with a
    non-empty price fails with the cross-field failure, whether or not the
    price would parse; a LIMIT order without a price fails with "price
    required"; a LIMIT order with a price fails with the failure of
    [validate_price] when that check rejects the price; in the two cases
    left, a MARKET order without a price and a LIMIT order whose price
    [validate_price] accepts, validation succeeds.  The price is thus
    checked after the cross-field rule, and only for a LIMIT order. *)
Theorem validation_order s d ty q p :
  let run := validate_order_params s d ty q p in
  (∀ e, validate_symbol s = Raise e → run = Raise e)
  ∧ (∀ e, is_ok (validate_symbol s) = true →
          validate_side d = Raise e → run = Raise e)
  ∧ (∀ e, is_ok (validate_symbol s) = true → is_ok (validate_side d) = true →
          validate_order_type ty = Raise e → run = Raise e)
  ∧ (∀ e, is_ok (validate_symbol s) = true → is_ok (validate_side d) = true →
          is_ok (validate_order_type ty) = true →
          validate_quantity q = Raise e → run = Raise e)
  ∧ (is_ok (validate_symbol s) = true → is_ok (validate_side d) = true →
     is_ok (validate_quantity q) = true →
     (validate_order_type ty = Ok "MARKET"%string →
      price_missing p = false →
      run = Raise (ValidationError
                     "Price should not be specified for MARKET orders"))
     ∧ (validate_order_type ty = Ok "LIMIT"%string →
        price_missing p = true →
        run = Raise (ValidationError "Price is required for LIMIT orders"))
     ∧ (∀ e, validate_order_type ty = Ok "LIMIT"%string →
             price_missing p = false →
             validate_price p = Raise e → run = Raise e)
     ∧ (validate_order_type ty = Ok "MARKET"%string →
        price_missing p = true → is_ok run = true)
     ∧ (validate_order_type ty = Ok "LIMIT"%string →
        price_missing p = false → is_ok (validate_price p) = true →
        is_ok run = true)).
Proof.
  intros run. subst run.
  unfold validate_order_params, mbind, result_bind, rbind.
  split; [by intros e ->|].
  destruct (validate_symbol s) as [sym|]; [|by repeat split].
  split; [by intros e _ ->|].
  destruct (validate_side d) as [sd|]; [|by repeat split].
  split; [by intros e _ _ ->|].
  split.
  { intros e _ _. destruct (validate_order_type ty); [|done]. by intros _ ->. }
  intros _ _ Hq.
  destruct (validate_quantity q) as [qty|]; [|discriminate Hq].
  split; [|split; [|split; [|split]]].
  - intros -> Hp. cbn. by rewrite Hp.
  - intros -> Hp. cbn. by rewrite Hp.
  - intros e -> Hp He. cbn. by rewrite Hp, He.
  - intros -> Hp. cbn. by rewrite Hp.
  - intros -> Hp Hv. cbn. rewrite Hp.
    by destruct (validate_price p).
Qed.

Lemma validation_order_witness :
  validate_order_params "BTC" "x" "y" "z" None
  = Raise (ValidationError "Symbol must end with 'USDT' for USDT-M futures")
  ∧ validate_order_params "BTCUSDT" "BUY" "MARKET" "1" (Some "2500.5")
    = Raise (ValidationError "Price should not be specified for MARKET orders")
  ∧ validate_order_params "BTCUSDT" "BUY" "LIMIT" "1" (Some "abc")
    = Raise (ValidationError "Price must be a valid number").
Proof.
  split; [|split].
  - apply (proj1 (validation_order "BTC" "x" "y" "z" None)).
    vm_compute. reflexivity.
  - destruct (validation_order "BTCUSDT" "BUY" "MARKET" "1" (Some "2500.5"))
      as (_ & _ & _ & _ & H).
    destruct H as (H & _); [vm_compute; reflexivity ..|].
    apply H; vm_compute; reflexivity.
  - destruct (validation_order "BTCUSDT" "BUY" "LIMIT" "1" (Some "abc"))
      as (_ & _ & _ & _ & H).
    destruct H as (_ & _ & H & _); [vm_compute; reflexivity ..|].
    apply H; vm_compute; reflexivity.
Defined.

(** Every failure of the validator is a [ValidationError]. *)
Lemma validation_failure_kind s d ty q p e :
  validate_order_params s d ty q p = Raise e → is_validation_error e = true.
Proof.
  unfold validate_order_params, mbind, result_bind, rbind.
  destruct (validate_symbol s) as [sym|e1] eqn:E1.
  2:{ intros H; inversion H; subst e1. revert E1. unfold validate_symbol.
      repeat case_match; intros H'; inversion H'; reflexivity. }
  destruct (validate_side d) as [sd|e2] eqn:E2.
  2:{ intros H; inversion H; subst e2. revert E2. unfold validate_side.
      repeat case_match; intros H'; inversion H'; reflexivity. }
  destruct (validate_order_type ty) as [t|e3] eqn:E3.
  2:{ intros H; inversion H; subst e3. revert E3. unfold validate_order_type.
      repeat case_match; intros H'; inversion H'; reflexivity. }
  destruct (validate_quantity q) as [qty|e4] eqn:E4.
  2:{ intros H; inversion H; subst e4. revert E4. unfold validate_quantity.
      repeat case_match; intros H'; inversion H'; reflexivity. }
  destruct (String.eqb t "LIMIT"); destruct (price_missing p); simpl;
    try (intros H; inversion H; reflexivity).
  destruct (validate_price p) as [x|e5] eqn:E5; [discriminate|].
  intros H; inversion H; subst e5. revert E5. unfold validate_price.
  repeat case_match; intros H'; inversion H'; reflexivity.
Qed.

End ValidationOrder.

Section QuantityAndPrice.
Import PyStr Validators.

(** C4, counterexample.  The string [inf] parses to positive infinity, which
    is not finite, and quantity validation accepts it; so does a decimal
    literal too large for a binary64 number. *)
Lemma validate_quantity_counterexample :
  PyFloat.float_of_str "inf" = Some (S754_infinity false)
  ∧ PyFloat.is_finite (S754_infinity false) = false
  ∧ validate_quantity "inf" = Ok (S754_infinity false)
  ∧ validate_quantity "1e400" = Ok (S754_infinity false)
  ∧ ¬ (∀ s x, PyFloat.float_of_str s = Some x → PyFloat.is_finite x = false →
              is_ok (validate_quantity s) = false).
Proof.
  split; [by vm_compute|]. split; [reflexivity|].
  split; [by vm_compute|]. split; [by vm_compute|].
  intros H.
  assert (Hinf : is_ok (validate_quantity "inf") = true) by (by vm_compute).
  rewrite (H "inf"%string (S754_infinity false)) in Hinf;
    [discriminate|by vm_compute|reflexivity].
Qed.

(** C4, amended.  For every quantity string that does not parse to a NaN,
    quantity validation succeeds exactly when the string parses, as a
    Python float, to a value strictly greater than zero, positive infinity
    included, and then returns that value; every string that does not parse
    as a number and every string that parses to a value less than or equal
    to zero is rejected with a [ValidationError]. *)
Theorem validate_quantity_spec s :
  PyFloat.float_of_str s ≠ Some PyFloat.nan →
  (∀ x, validate_quantity s = Ok x ↔
        PyFloat.float_of_str s = Some x ∧ PyFloat.gt_zero x = true)
  ∧ (PyFloat.float_of_str s = None →
     validate_quantity s
     = Raise (ValidationError "Quantity must be a valid number"))
  ∧ (∀ x, PyFloat.float_of_str s = Some x → PyFloat.le_zero x = true →
     validate_quantity s
     = Raise (ValidationError "Quantity must be greater than 0")).
Proof.
  intros Hnan. unfold validate_quantity.
  destruct (PyFloat.float_of_str s) as [y|] eqn:E.
  - assert (Hy : PyFloat.is_nan y = false).
    { destruct y; try reflexivity. by destruct Hnan. }
    pose proof (le_zero_gt_zero y Hy) as Hle.
    split; [|split].
    + intros x. split.
      * destruct (PyFloat.le_zero y); [discriminate|].
        intros [= ->]. split; [done|]. by destruct (PyFloat.gt_zero x).
      * intros [[= ->] Hx]. by rewrite Hle, Hx.
    + discriminate.
    + by intros x [= ->] ->.
  - split; [|split].
    + intros x. split; [discriminate|]. by intros [? _].
    + done.
    + discriminate.
Qed.

Lemma validate_quantity_spec_witness :
  validate_quantity "0.01" = Ok (S754_finite false 5764607523034235 (-59)).
Proof.
  assert (H : PyFloat.float_of_str "0.01" ≠ Some PyFloat.nan)
    by (vm_compute; discriminate).
  destruct (validate_quantity_spec "0.01" H) as [Hiff _].
  apply Hiff. split; vm_compute; reflexivity.
Defined.

(** The part of the price invariant that holds: a validated record has a
    price field exactly when its type is LIMIT, and the price of a LIMIT
    record is a float that is not less than or equal to zero. *)
Lemma price_field_iff_limit s d ty q p params :
  validate_order_params s d ty q p = Ok params →
  (is_Some (params !! "price") ↔ params !! "type" = Some (PStr "LIMIT"))
  ∧ (params !! "type" = Some (PStr "LIMIT") →
     ∃ x, params !! "price" = Some (PFloat x) ∧ PyFloat.le_zero x = false)
  ∧ (params !! "type" = Some (PStr "MARKET") → params !! "price" = None).
Proof.
  intros H.
  destruct (validated_shape _ _ _ _ _ _ H)
    as (sym & sd & t & qty & _ & _ & _ & _ & Hshape).
  destruct Hshape as [(-> & _ & ->) | (-> & Ep & x & Hx & ->)].
  - split; [split|split].
    + intros [v Hv]. by vm_compute in Hv.
    + intros Ht. by vm_compute in Ht.
    + intros Ht. by vm_compute in Ht.
    + intros _. by vm_compute.
  - assert (Hx' : PyFloat.le_zero x = false).
    { revert Hx. unfold validate_price.
      destruct p as [[|c r]|]; try discriminate.
      simpl. destruct (PyFloat.float_of_str (String c r)) as [y|]; [|discriminate].
      destruct (PyFloat.le_zero y) eqn:E; [discriminate|]. by intros [= <-]. }
    split; [split|split].
    + intros _. by vm_compute.
    + intros _. rewrite lookup_insert_eq. by eexists.
    + intros _. exists x. split; [apply lookup_insert_eq|done].
    + intros Ht. by vm_compute in Ht.
Qed.

(** C7, failing input.  A LIMIT order with price [nan] passes validation,
    and the price field of the validated record is a NaN, which is not
    strictly positive. *)
Theorem limit_price_nan_accepted :
  ∃ params,
    validate_order_params "BTCUSDT" "BUY" "LIMIT" "1" (Some "nan") = Ok params
    ∧ params !! "type" = Some (PStr "LIMIT")
    ∧ params !! "price" = Some (PFloat PyFloat.nan)
    ∧ PyFloat.gt_zero PyFloat.nan = false.
Proof. eexists. repeat split; by vm_compute. Qed.

End QuantityAndPrice.

(** ** The monad: results and traces of composed computations *)

Section MonadFacts.
Context {A B : Type}.

Lemma bind_fst (m : M A) (k : A → M B) :
  (bind m k).1 = match m.1 with Ok a => (k a).1 | Raise e => Raise e end.
Proof. unfold bind. by destruct m.1. Qed.

Lemma bind_snd (m : M A) (k : A → M B) :
  (bind m k).2 = m.2 ++ match m.1 with Ok a => (k a).2 | Raise e => [] end.
Proof. unfold bind. destruct m.1; simpl; [done|by rewrite app_nil_r]. Qed.

Lemma try_except_fst (body : M A) (handler : exn → M A) :
  (try_except body handler).1
  = match body.1 with Ok a => Ok a | Raise e => (handler e).1 end.
Proof. unfold try_except. by destruct body.1. Qed.

Lemma try_except_snd (body : M A) (handler : exn → M A) :
  (try_except body handler).2
  = body.2 ++ match body.1 with Ok a => [] | Raise e => (handler e).2 end.
Proof. unfold try_except. destruct body.1; simpl; [by rewrite app_nil_r|done]. Qed.

Lemma pair_eta (m : M A) : m = (m.1, m.2).
Proof. by destruct m. Qed.

End MonadFacts.

Lemma calls_app t1 t2 : calls (t1 ++ t2) = calls t1 ++ calls t2.
Proof. apply omap_app. Qed.

Lemma posts_app t1 t2 : posts (t1 ++ t2) = posts t1 ++ posts t2.
Proof. apply omap_app. Qed.

Lemma gets_app t1 t2 : gets (t1 ++ t2) = gets t1 ++ gets t2.
Proof. apply omap_app. Qed.

(** Unfold the binds of a computation and split it into its result and its
    trace. *)
Ltac mstep :=
  unfold mbind, M_bind, log; cbv beta;
  repeat (progress
    (repeat first
       [ rewrite bind_fst | rewrite bind_snd
       | rewrite try_except_fst | rewrite try_except_snd
       | rewrite calls_app | rewrite posts_app | rewrite gets_app ];
     cbn [fst snd emit lift ret raise])).

Section ConnectorFacts.
Import Client.

(** C8. [test_connection] always returns a boolean and never raises; the
    boolean is true exactly when the GET of the account endpoint yields a
    response with status code 200, and false for every other status code
    and for every exception raised by the request.  It sends that one
    request and no order. *)
Theorem test_connection_total (self : BinanceTestnetClient) :
  ∃ b t,
    test_connection self = (Ok b, t)
    ∧ (b = true ↔
       ∃ response, requests_get (net self) (account_request self) = Ok response
                   ∧ status_code response = 200)
    ∧ b = match requests_get (net self) (account_request self) with
          | Ok response => status_code response =? 200
          | Raise _ => false
          end
    ∧ gets t = [account_request self]
    ∧ req_url (account_request self)
      = "https://testnet.binancefuture.com/fapi/v2/account"%string
    ∧ posts t = [].
Proof.
  unfold test_connection.
  generalize (eq_refl (req_url (account_request self))).
  generalize (account_request self) at 2 3 4 5 6 7 as req. intros req Hurl.
  rewrite (pair_eta (mbind _ _)). mstep.
  destruct (requests_get (net self) req) as [response|e] eqn:E; cbn [fst snd].
  - destruct (status_code response =? 200) eqn:Es; mstep; cbn;
      eexists _, _; (split; [reflexivity|]); repeat split; try done.
    + intros _. exists response. split; [done|]. by apply Z.eqb_eq.
    + intros [r [[= <-] Hr]]. apply Z.eqb_eq in Hr. congruence.
  - mstep. cbn. eexists _, _. (split; [reflexivity|]); repeat split; try done.
    intros [r [[=] _]].
Qed.

End ConnectorFacts.

Section SymbolInfoFacts.
Import Client.

Lemma scan_symbols_quiet symbol l :
  calls (scan_symbols symbol l).2 = [] ∧ posts (scan_symbols symbol l).2 = [].
Proof.
  induction l as [|s r [IHc IHp]]; [done|].
  destruct s; try done.
  cbn [scan_symbols]. unfold getitem.
  destruct (d !! "symbol") as [v|]; [|done].
  mstep. destruct (py_eq_str v symbol); [done|].
  by rewrite IHc, IHp.
Qed.

(** [get_symbol_info] never raises: every failure becomes [None]. *)
Lemma get_symbol_info_total self symbol :
  ∃ info, (get_symbol_info self symbol).1 = Ok info.
Proof.
  unfold get_symbol_info. mstep.
  match goal with |- context [match ?b with _ => _ end] => destruct b end;
    by eexists.
Qed.

(** It is one connector call, and it sends no order. *)
Lemma get_symbol_info_trace self symbol :
  calls (get_symbol_info self symbol).2 = [get_symbol_info_m]
  ∧ posts (get_symbol_info self symbol).2 = [].
Proof.
  unfold get_symbol_info. mstep.
  destruct (requests_get _ _) as [response|e]; [|done].
  destruct (status_code response =? 200); [|done].
  mstep. destruct (json response) as [data|e]; [|done].
  mstep. destruct (symbols_of data) as [syms|e]; [|done].
  mstep. destruct (iterate syms) as [l|e]; [|done].
  destruct (scan_symbols_quiet symbol l) as [Hc Hp].
  cbn [calls posts omap app] in *. rewrite Hc, Hp.
  by destruct ((scan_symbols symbol l).1).
Qed.

Lemma log_and_reraise_fst {A} what e :
  (log_and_reraise (A := A) what e).1 = Raise e.
Proof. by destruct e. Qed.

Lemma log_and_reraise_quiet {A} what e :
  calls (log_and_reraise (A := A) what e).2 = []
  ∧ posts (log_and_reraise (A := A) what e).2 = [].
Proof. by destruct e. Qed.

(** A market order is one POST, and the method returns or raises exactly
    what the POST returned or raised. *)
Lemma place_market_order_run self symbol side quantity :
  let op := market_order_params self symbol side quantity in
  (place_market_order self symbol side quantity).1
  = futures_create_order (net self) op
  ∧ posts (place_market_order self symbol side quantity).2 = [op]
  ∧ calls (place_market_order self symbol side quantity).2
    = [place_market_order_m].
Proof.
  intros op. unfold place_market_order. fold op. mstep.
  destruct (futures_create_order (net self) op) as [response|e]; [done|].
  rewrite ?log_and_reraise_fst, ?calls_app, ?posts_app.
  destruct (log_and_reraise_quiet (A := dict) "market" e) as [-> ->]. done.
Qed.

Lemma place_limit_order_run self symbol side quantity price tif :
  let op := limit_order_params self symbol side quantity price tif in
  (place_limit_order self symbol side quantity price tif).1
  = futures_create_order (net self) op
  ∧ posts (place_limit_order self symbol side quantity price tif).2 = [op]
  ∧ calls (place_limit_order self symbol side quantity price tif).2
    = [place_limit_order_m].
Proof.
  intros op. unfold place_limit_order. fold op. mstep.
  destruct (futures_create_order (net self) op) as [response|e]; [done|].
  rewrite ?log_and_reraise_fst, ?calls_app, ?posts_app.
  destruct (log_and_reraise_quiet (A := dict) "limit" e) as [-> ->]. done.
Qed.

End SymbolInfoFacts.

Section OrderFacts.
Import PyStr Validators Client Orders.

Lemma validated_record_lookup sym sd t qty :
  let r := validated_record sym sd t qty in
  r !! "symbol" = Some (PStr sym) ∧ r !! "side" = Some (PStr sd)
  ∧ r !! "type" = Some (PStr t) ∧ r !! "quantity" = Some (PFloat qty)
  ∧ r !! "price" = None.
Proof. repeat split; by vm_compute. Qed.

Lemma priced_record_lookup sym sd t qty x :
  let r : dict := <["price" := x]> (validated_record sym sd t qty) in
  r !! "symbol" = Some (PStr sym) ∧ r !! "side" = Some (PStr sd)
  ∧ r !! "type" = Some (PStr t) ∧ r !! "quantity" = Some (PFloat qty)
  ∧ r !! "price" = Some x.
Proof. repeat split; by vm_compute. Qed.

(** Logging the response raises nothing, calls nothing, and writes each
    field with the sentinel in place of an absent value. *)
Lemma log_order_response_run self response :
  (_log_order_response self response).1 = Ok tt
  ∧ calls (_log_order_response self response).2 = []
  ∧ posts (_log_order_response self response).2 = []
  ∧ ∀ label key, (label, key) ∈ logged_fields →
      Logged INFO [Lit label; Val (get_or response key sentinel)]
      ∈ (_log_order_response self response).2.
Proof.
  unfold _log_order_response, banner, log_field. mstep.
  destruct (response !! "avgPrice") as [v|];
    [destruct (blank_avg_price v)|]; cbn [negb fst snd ret log emit];
    (split; [reflexivity|]); (split; [reflexivity|]);
    (split; [reflexivity|]);
    intros label key Hf; unfold logged_fields in Hf;
    repeat (apply elem_of_cons in Hf as [[= -> ->]|Hf]);
    try (by apply elem_of_nil in Hf);
    cbn [app]; by repeat constructor.
Qed.

(** Placing a market order from validated parameters: one POST, whose
    answer is returned unchanged after its fields were logged. *)
Lemma place_market_order_from_params self (params : dict) sym sd v :
  params !! "symbol" = Some (PStr sym) →
  params !! "side" = Some (PStr sd) →
  params !! "quantity" = Some v →
  let op := market_order_params (client self) sym sd v in
  let run := _place_market_order self params in
  run.1 = futures_create_order (net (client self)) op
  ∧ posts run.2 = [op]
  ∧ calls run.2 = [place_market_order_m]
  ∧ ∀ r, run.1 = Ok r → ∀ label key, (label, key) ∈ logged_fields →
      Logged INFO [Lit label; Val (get_or r key sentinel)] ∈ run.2.
Proof.
  intros Hsym Hsd Hq op run. subst run.
  unfold _place_market_order, banner, getitem, getitem_str.
  rewrite Hsym, Hsd, Hq. mstep.
  destruct (place_market_order_run (client self) sym sd v) as (H1 & H2 & H3).
  fold op in H1, H2. rewrite H1, H2, H3.
  destruct (futures_create_order (net (client self)) op) as [r|e]; [|done].
  destruct (log_order_response_run self r) as (L1 & L2 & L3 & L4).
  mstep. rewrite L1, L2, L3. cbn [fst snd].
  repeat split. intros r' [= <-] label key Hf.
  pose proof (L4 _ _ Hf). rewrite !elem_of_app. tauto.
Qed.

Lemma place_limit_order_from_params self (params : dict) sym sd v x :
  params !! "symbol" = Some (PStr sym) →
  params !! "side" = Some (PStr sd) →
  params !! "quantity" = Some v →
  params !! "price" = Some x →
  let op := limit_order_params (client self) sym sd v x "GTC" in
  let run := _place_limit_order self params in
  run.1 = futures_create_order (net (client self)) op
  ∧ posts run.2 = [op]
  ∧ calls run.2 = [place_limit_order_m]
  ∧ ∀ r, run.1 = Ok r → ∀ label key, (label, key) ∈ logged_fields →
      Logged INFO [Lit label; Val (get_or r key sentinel)] ∈ run.2.
Proof.
  intros Hsym Hsd Hq Hx op run. subst run.
  unfold _place_limit_order, banner, getitem, getitem_str.
  rewrite Hsym, Hsd, Hq, Hx. mstep.
  destruct (place_limit_order_run (client self) sym sd v x "GTC")
    as (H1 & H2 & H3).
  fold op in H1, H2. rewrite H1, H2, H3.
  destruct (futures_create_order (net (client self)) op) as [r|e]; [|done].
  destruct (log_order_response_run self r) as (L1 & L2 & L3 & L4).
  mstep. rewrite L1, L2, L3. cbn [fst snd].
  repeat split. intros r' [= <-] label key Hf.
  pose proof (L4 _ _ Hf). rewrite !elem_of_app. tauto.
Qed.

End OrderFacts.

Section PlaceOrder.
Import PyStr Validators Client Orders.

(** The fields of a validated record that [place_order] reads. *)
Lemma validated_fields s d ty q p params :
  validate_order_params s d ty q p = Ok params →
  ∃ sd t qty,
    validate_symbol s = Ok (strip (upper s))
    ∧ params !! "symbol" = Some (PStr (strip (upper s)))
    ∧ params !! "side" = Some (PStr sd)
    ∧ params !! "type" = Some (PStr t)
    ∧ params !! "quantity" = Some (PFloat qty)
    ∧ ((t = "MARKET"%string ∧ params !! "price" = None)
       ∨ (t = "LIMIT"%string ∧ ∃ x, params !! "price" = Some (PFloat x))).
Proof.
  intros H.
  destruct (validated_shape _ _ _ _ _ _ H)
    as (sym & sd & t & qty & Hs & _ & _ & _ & Hshape).
  destruct (validate_symbol_ok _ _ Hs) as (Hsym & _). subst sym.
  exists sd, t, qty. split; [done|].
  destruct Hshape as [(-> & _ & ->) | (-> & _ & x & _ & ->)].
  - destruct (validated_record_lookup (strip (upper s)) sd "MARKET" qty)
      as (? & ? & ? & ? & ?). repeat split; try done. by left.
  - destruct (priced_record_lookup (strip (upper s)) sd "LIMIT" qty (PFloat x))
      as (? & ? & ? & ? & ?). repeat split; try done. right. eauto.
Qed.

(** [place_order] after a successful validation: two log records, the
    look-up of the symbol, then either a rejection or the placement. *)
Lemma place_order_after_validation self s d ty q p params :
  validate_order_params s d ty q p = Ok params →
  ∃ sd t qty info,
    let sym := strip (upper s) in
    let fetched := get_symbol_info (client self) sym in
    let pre :=
      [Logged INFO [Lit "Validating order parameters..."];
       Logged INFO [Lit "Order validated: "; Val (PStr t); Lit " ";
                    Val (PStr sd); Lit " "; Val (PFloat qty); Lit " ";
                    Val (PStr sym)]] in
    params !! "type" = Some (PStr t)
    ∧ fetched.1 = Ok info
    ∧ place_order self s d ty q p =
        if falsy info then
          (Raise (ValidationError
                    ("Symbol " +:+ sym +:+ " not found or not tradable")),
           pre ++ fetched.2)
        else if negb (py_eq_str (get_or (default ∅ info) "status" PNone)
                        "TRADING") then
          (Raise (ValidationError
                    ("Symbol " +:+ sym +:+ " is not currently trading")),
           pre ++ fetched.2)
        else
          let run := if py_eq_str (PStr t) "MARKET"
                     then _place_market_order self params
                     else _place_limit_order self params in
          (run.1, pre ++ fetched.2 ++ run.2).
Proof.
  intros H.
  destruct (validated_fields _ _ _ _ _ _ H)
    as (sd & t & qty & _ & Hsym & Hsd & Ht & Hq & _).
  destruct (get_symbol_info_total (client self) (strip (upper s)))
    as [info Hinfo].
  exists sd, t, qty, info. cbv zeta. split; [done|]. split; [done|].
  rewrite (pair_eta (place_order _ _ _ _ _ _)).
  unfold place_order, getitem, getitem_str.
  rewrite H. mstep. rewrite Ht, Hsd, Hq, Hsym. mstep. rewrite Hinfo.
  destruct (falsy info).
  { cbn [raise fst snd app]. by rewrite app_nil_r. }
  destruct (negb _).
  { cbn [raise fst snd app]. by rewrite app_nil_r. }
  mstep. reflexivity.
Qed.

(** A status other than TRADING, or none, fails the status test. *)
Lemma status_not_trading (i : dict) :
  i !! "status" ≠ Some (PStr "TRADING") →
  py_eq_str (get_or i "status" PNone) "TRADING" = false.
Proof.
  intros Hne. unfold get_or.
  destruct (i !! "status") as [[]|]; try reflexivity. simpl.
  destruct (String.eqb s "TRADING") eqn:E; [|done].
  apply String.eqb_eq in E. by subst.
Qed.

(** A failed validation ends [place_order] after its first log record. *)
Lemma place_order_invalid self s d ty q p e :
  validate_order_params s d ty q p = Raise e →
  place_order self s d ty q p
  = (Raise e, [Logged INFO [Lit "Validating order parameters..."]]).
Proof.
  intros H. rewrite (pair_eta (place_order _ _ _ _ _ _)).
  unfold place_order. rewrite H. mstep. reflexivity.
Qed.

(** C5. When the validation of the parameters fails, [place_order] raises
    that failure after its first log record and before any connector
    method is called: no [get_symbol_info], no [place_market_order], no
    [place_limit_order], no HTTP request and no order POST. *)
Theorem validation_failure_stops_pipeline self s d ty q p e :
  validate_order_params s d ty q p = Raise e →
  place_order self s d ty q p
  = (Raise e, [Logged INFO [Lit "Validating order parameters..."]])
  ∧ calls (place_order self s d ty q p).2 = []
  ∧ gets (place_order self s d ty q p).2 = []
  ∧ posts (place_order self s d ty q p).2 = [].
Proof.
  intros H. rewrite (place_order_invalid self _ _ _ _ _ _ H). repeat split.
Qed.

Lemma validation_failure_stops_pipeline_witness :
  place_order (Scenario.manager Scenario.exchange_down)
    "BTCUSDT" "BUY" "MARKET" "0" None
  = (Raise (ValidationError "Quantity must be greater than 0"),
     [Logged INFO [Lit "Validating order parameters..."]])
  ∧ calls (place_order (Scenario.manager Scenario.exchange_down)
             "BTCUSDT" "BUY" "MARKET" "abc" None).2 = [].
Proof.
  split.
  - apply (validation_failure_stops_pipeline
             (Scenario.manager Scenario.exchange_down)
             "BTCUSDT" "BUY" "MARKET" "0" None
             (ValidationError "Quantity must be greater than 0")).
    vm_compute. reflexivity.
  - apply (validation_failure_stops_pipeline
             (Scenario.manager Scenario.exchange_down)
             "BTCUSDT" "BUY" "MARKET" "abc" None
             (ValidationError "Quantity must be a valid number")).
    vm_compute. reflexivity.
Defined.

(** C2, counterexample.  For a MARKET order on a symbol whose fetched
    status is BREAK, the failure raised is a [ValidationError], the very
    kind raised for invalid parameters, not a failure of another kind. *)
Lemma untradable_failure_kind_counterexample :
  (place_order
     (Scenario.manager
        (Scenario.exchange_with [Scenario.instrument "BTCUSDT" "BREAK"]
           (Ok Scenario.short_reply)))
     "BTCUSDT" "BUY" "MARKET" "0.01" None).1
  = Raise (ValidationError "Symbol BTCUSDT is not currently trading")
  ∧ ¬ (∃ e,
         (place_order
            (Scenario.manager
               (Scenario.exchange_with [Scenario.instrument "BTCUSDT" "BREAK"]
                  (Ok Scenario.short_reply)))
            "BTCUSDT" "BUY" "MARKET" "0.01" None).1 = Raise e
         ∧ is_validation_error e = false).
Proof.
  assert (H : (place_order
     (Scenario.manager
        (Scenario.exchange_with [Scenario.instrument "BTCUSDT" "BREAK"]
           (Ok Scenario.short_reply)))
     "BTCUSDT" "BUY" "MARKET" "0.01" None).1
    = Raise (ValidationError "Symbol BTCUSDT is not currently trading"))
    by (by vm_compute).
  split; [exact H|]. intros (e & He & Hk). rewrite H in He.
  inversion He; subst e. discriminate Hk.
Qed.

(** C2, amended.  For every order that passes validation and whose fetched
    symbol information is absent, or present with a status other than
    TRADING, [place_order] aborts by raising a [ValidationError], the same
    exception class as for invalid parameters, with the message that the
    symbol was not found or is not currently trading; the only connector
    call made is [get_symbol_info] and no order POST is issued. *)
Theorem untradable_symbol_rejected self s d ty q p params info :
  validate_order_params s d ty q p = Ok params →
  (get_symbol_info (client self) (strip (upper s))).1 = Ok info →
  (info = None ∨ ∃ i, info = Some i ∧ i !! "status" ≠ Some (PStr "TRADING")) →
  ∃ msg,
    (place_order self s d ty q p).1 = Raise (ValidationError msg)
    ∧ (msg = "Symbol " +:+ strip (upper s) +:+ " not found or not tradable"
       ∨ msg = "Symbol " +:+ strip (upper s) +:+ " is not currently trading")
    ∧ posts (place_order self s d ty q p).2 = []
    ∧ calls (place_order self s d ty q p).2 = [get_symbol_info_m].
Proof.
  intros Hv Hinfo Hbad.
  destruct (place_order_after_validation self _ _ _ _ _ _ Hv)
    as (sd & t & qty & info' & _ & Hinfo' & Hrun).
  cbv zeta in *. rewrite Hinfo in Hinfo'. inversion Hinfo'; subst info'.
  destruct (get_symbol_info_trace (client self) (strip (upper s))) as [Hc Hp].
  rewrite Hrun.
  destruct (falsy info) eqn:Ef.
  - eexists. split; [reflexivity|]. split; [by left|].
    cbn [snd]. by rewrite calls_app, posts_app, Hc, Hp.
  - assert (Hst : py_eq_str (get_or (default ∅ info) "status" PNone) "TRADING"
                  = false).
    { destruct Hbad as [-> | (i & -> & Hne)]; [discriminate Ef|].
      by apply status_not_trading. }
    rewrite Hst. cbn [negb].
    eexists. split; [reflexivity|]. split; [by right|].
    cbn [snd]. by rewrite calls_app, posts_app, Hc, Hp.
Qed.

Lemma untradable_symbol_rejected_witness :
  ∃ msg,
    (place_order
       (Scenario.manager
          (Scenario.exchange_with [Scenario.instrument "BTCUSDT" "BREAK"]
             (Ok Scenario.short_reply)))
       "btcusdt" "buy" "market" "0.01" None).1 = Raise (ValidationError msg)
    ∧ posts (place_order
               (Scenario.manager
                  (Scenario.exchange_with
                     [Scenario.instrument "BTCUSDT" "BREAK"]
                     (Ok Scenario.short_reply)))
               "btcusdt" "buy" "market" "0.01" None).2 = [].
Proof.
  destruct (untradable_symbol_rejected
              (Scenario.manager
                 (Scenario.exchange_with
                    [Scenario.instrument "BTCUSDT" "BREAK"]
                    (Ok Scenario.short_reply)))
              "btcusdt" "buy" "market" "0.01" None
              (validated_record "BTCUSDT" "BUY" "MARKET"
                 (S754_finite false 5764607523034235 (-59)))
              (Some (<["status" := PStr "BREAK"]>
                       (<["symbol" := PStr "BTCUSDT"]> ∅))))
    as (msg & H1 & _ & H2 & _).
  - vm_compute. reflexivity.
  - vm_compute. reflexivity.
  - right. eexists. split; [reflexivity|]. vm_compute. discriminate.
  - exists msg. split; [exact H1|exact H2].
Defined.

(** C6, counterexample.  The exchange acknowledges a MARKET order with a
    response of three fields; [place_order] returns that response as it
    is, without the time in force and the other absent fields, whereas the
    normalised record holds the sentinel for each of them. *)
Lemma order_result_counterexample :
  (place_order
     (Scenario.manager
        (Scenario.exchange_with [Scenario.instrument "BTCUSDT" "TRADING"]
           (Ok Scenario.short_reply)))
     "BTCUSDT" "BUY" "MARKET" "0.01" None).1
  = Ok Scenario.short_reply
  ∧ Scenario.short_reply !! "timeInForce" = None
  ∧ spec_normalize Scenario.short_reply !! "timeInForce" = Some sentinel
  ∧ (place_order
       (Scenario.manager
          (Scenario.exchange_with [Scenario.instrument "BTCUSDT" "TRADING"]
             (Ok Scenario.short_reply)))
       "BTCUSDT" "BUY" "MARKET" "0.01" None).1
    ≠ Ok (spec_normalize Scenario.short_reply).
Proof.
  assert (Hrun : (place_order
     (Scenario.manager
        (Scenario.exchange_with [Scenario.instrument "BTCUSDT" "TRADING"]
           (Ok Scenario.short_reply)))
     "BTCUSDT" "BUY" "MARKET" "0.01" None).1 = Ok Scenario.short_reply)
    by (vm_compute; reflexivity).
  assert (Hraw : Scenario.short_reply !! "timeInForce" = None)
    by (vm_compute; reflexivity).
  assert (Hnorm : spec_normalize Scenario.short_reply !! "timeInForce"
                  = Some sentinel) by (vm_compute; reflexivity).
  split; [exact Hrun|]. split; [exact Hraw|]. split; [exact Hnorm|].
  rewrite Hrun. intros Heq.
  apply (f_equal (λ r : result dict,
                    match r with
                    | Ok m => m !! "timeInForce"
                    | Raise _ => None
                    end)) in Heq.
  cbv beta iota in Heq. rewrite Hraw, Hnorm in Heq. discriminate Heq.
Qed.

(** C6, amended.  For every successful placement, the value returned by
    [place_order] is the response of the exchange to the one order POST,
    unchanged: a field absent from that response is absent from the
    returned value.  The sentinel stands in for an absent field only in
    the log records written for the response, one for each of orderId,
    clientOrderId, symbol, status, type, side, price, origQty, executedQty,
    timeInForce and updateTime. *)
Theorem place_order_returns_response self s d ty q p r :
  (place_order self s d ty q p).1 = Ok r →
  ∃ op,
    posts (place_order self s d ty q p).2 = [op]
    ∧ futures_create_order (net (client self)) op = Ok r
    ∧ ∀ label key, (label, key) ∈ logged_fields →
        Logged INFO [Lit label; Val (get_or r key sentinel)]
        ∈ (place_order self s d ty q p).2.
Proof.
  intros Hok.
  destruct (validate_order_params s d ty q p) as [params|e] eqn:Hv.
  2:{ rewrite (place_order_invalid self _ _ _ _ _ _ Hv) in Hok.
      discriminate Hok. }
  destruct (place_order_after_validation self _ _ _ _ _ _ Hv)
    as (sd' & t' & qty' & info & Ht' & Hinfo & Hrun).
  destruct (validated_fields _ _ _ _ _ _ Hv)
    as (sd & t & qty & _ & Hsym & Hsd & Ht & Hq & Hprice).
  cbv zeta in *. rewrite Ht in Ht'. inversion Ht'; subst t'. clear Ht'.
  destruct (get_symbol_info_trace (client self) (strip (upper s))) as [_ Hp].
  rewrite Hrun in Hok |- *.
  destruct (falsy info); [discriminate Hok|].
  destruct (negb _); [discriminate Hok|].
  cbn [fst snd] in Hok |- *. rewrite !posts_app, Hp. cbn [posts omap app].
  destruct Hprice as [[-> _] | [-> [x Hx]]]; cbn [py_eq_str String.eqb] in *.
  - destruct (place_market_order_from_params self params _ _ _ Hsym Hsd Hq)
      as (H1 & H2 & _ & H4). cbv zeta in *.
    eexists. split; [exact H2|]. split; [by rewrite <- H1|].
    intros label key Hf. rewrite !elem_of_cons, elem_of_app.
    do 3 right. by apply (H4 r Hok).
  - destruct (place_limit_order_from_params self params _ _ _ _ Hsym Hsd Hq Hx)
      as (H1 & H2 & _ & H4). cbv zeta in *.
    eexists. split; [exact H2|]. split; [by rewrite <- H1|].
    intros label key Hf. rewrite !elem_of_cons, elem_of_app.
    do 3 right. by apply (H4 r Hok).
Qed.

Lemma place_order_returns_response_witness :
  ∃ op,
    posts (place_order
             (Scenario.manager
                (Scenario.exchange_with
                   [Scenario.instrument "BTCUSDT" "TRADING"]
                   (Ok Scenario.short_reply)))
             "BTCUSDT" "BUY" "MARKET" "0.01" None).2 = [op]
    ∧ futures_create_order
        (Scenario.exchange_with [Scenario.instrument "BTCUSDT" "TRADING"]
           (Ok Scenario.short_reply)) op
      = Ok Scenario.short_reply.
Proof.
  destruct (place_order_returns_response
              (Scenario.manager
                 (Scenario.exchange_with
                    [Scenario.instrument "BTCUSDT" "TRADING"]
                    (Ok Scenario.short_reply)))
              "BTCUSDT" "BUY" "MARKET" "0.01" None Scenario.short_reply)
    as (op & H1 & H2 & _).
  - vm_compute. reflexivity.
  - exists op. split; [exact H1|exact H2].
Defined.

End PlaceOrder.

(** ** The request signer *)

Section Signing.
Import UrlEncode Client.

(** The signature is the lowercase hexadecimal HMAC-SHA-256 digest, keyed
    by the bytes of the secret, of the bytes of the URL-encoded query
    string. *)
Lemma signature_is_hmac self ps :
  _generate_signature self ps
  = Bytes.hex_lower
      (HMAC.hmac_sha256 (Bytes.encode_utf8 (api_secret self))
         (Bytes.encode_utf8 (urlencode ps))).
Proof. reflexivity. Qed.

(** The query string lists the items in insertion order. *)
Lemma urlencode_cons kv kv' ps :
  urlencode (kv :: kv' :: ps)
  = encode_item kv +:+ "&" +:+ urlencode (kv' :: ps).
Proof. reflexivity. Qed.

Lemma urlencode_single kv : urlencode [kv] = encode_item kv.
Proof. reflexivity. Qed.

(** The signature depends on the parameters through the query string
    only. *)
Lemma same_query_same_signature self ps ps' :
  urlencode ps = urlencode ps' →
  _generate_signature self ps = _generate_signature self ps'.
Proof. unfold _generate_signature. by intros ->. Qed.

(** The two orders of [{a: 1, b: 2}] give two query strings. *)
Lemma query_strings_of_both_orders :
  urlencode [("a", QInt 1); ("b", QInt 2)] = "a=1&b=2"%string
  ∧ urlencode [("b", QInt 2); ("a", QInt 1)] = "b=2&a=1"%string.
Proof. split; by vm_compute. Qed.

(** Under the secret [secret], the two orders give two signatures. *)
Lemma signatures_of_both_orders :
  let self := client (Scenario.manager Scenario.exchange_down) in
  _generate_signature self [("a", QInt 1); ("b", QInt 2)]
  = "604fe97c66c6393ff22e3cae366eee1131e351ebc736bf12f5d62e1755b7a233"%string
  ∧ _generate_signature self [("b", QInt 2); ("a", QInt 1)]
    = "ae7fa1b7659b6eca6a812c948ac0c9fe8fe10289d6749b5534822fdafd40872c"%string.
Proof. split; by vm_compute. Qed.

(** The digest of the three bytes [abc], the first test vector of the
    hash standard, and the keyed digest of a well-known sentence. *)
Lemma sha256_test_vectors :
  Bytes.hex_lower (SHA256.sha256 (Bytes.encode_utf8 "abc"))
  = "ba7816bf8f01cfea414140de5dae2223b00361a396177a9cb410ff61f20015ad"%string
  ∧ HMAC.hexdigest (Bytes.encode_utf8 "key")
      (Bytes.encode_utf8 "The quick brown fox jumps over the lazy dog")
    = "f7bc83f430538424b13298e6aa6fb143ef4d59a14946175997479dbc2d1a3cd8"%string.
Proof. split; by vm_compute. Qed.

End Signing.

(** ** Further properties of the validators, the connector and the orders *)

Import PyStr Validators.

(** X1. A non-empty symbol whose normal form (upper-cased, stripped) does
    not end with USDT makes [validate_order_params] fail with the symbol
    suffix error, whatever the side, the order type, the quantity and the
    price are. *)
Theorem symbol_suffix_required s d ty q p :
  s ≠ EmptyString →
  endswith (strip (upper s)) "USDT" = false →
  validate_order_params s d ty q p
  = Raise (ValidationError "Symbol must end with 'USDT' for USDT-M futures").
Proof.
  intros Hs He. unfold validate_order_params, validate_symbol.
  destruct s; [done|]. simpl is_empty. cbv iota. by rewrite He.
Qed.

Lemma symbol_suffix_required_witness :
  validate_order_params "BTCUSD" "sideways" "STOP" "-1" (Some "x")
  = Raise (ValidationError "Symbol must end with 'USDT' for USDT-M futures").
Proof.
  apply symbol_suffix_required; [discriminate|vm_compute; reflexivity].
Defined.

Lemma short_usdt o :
  endswith o "USDT" = true → len o < 5 → o = "USDT"%string.
Proof.
  unfold endswith, len. intros He Hl.
  destruct o as [|a [|b [|c [|e [|f r]]]]]; try discriminate He.
  - cbn [String.length Nat.leb Nat.sub andb String.substring] in He.
    by apply String.eqb_eq in He.
  - simpl String.length in Hl. lia.
Qed.

(** X2. The three errors of [validate_symbol]: the empty-symbol error is
    raised for the empty string only, so a symbol made of blanks gets the
    suffix error; the too-short error is raised exactly when the normal
    form is the bare suffix USDT; the suffix error exactly when the symbol
    is not empty and its normal form does not end with USDT. *)
Theorem validate_symbol_errors s :
  (validate_symbol s = Raise (ValidationError "Symbol cannot be empty")
   ↔ s = EmptyString)
  ∧ (validate_symbol s = Raise (ValidationError "Symbol is too short")
     ↔ strip (upper s) = "USDT"%string)
  ∧ (validate_symbol s
     = Raise (ValidationError "Symbol must end with 'USDT' for USDT-M futures")
     ↔ s ≠ EmptyString ∧ endswith (strip (upper s)) "USDT" = false).
Proof.
  unfold validate_symbol. destruct s as [|c r].
  { cbn [is_empty]. split; [done|]. split.
    - split; [discriminate|]. intros H. by vm_compute in H.
    - split; [discriminate|]. by intros [? _]. }
  set (o := strip (upper (String c r))). cbn [is_empty].
  destruct (endswith o "USDT") eqn:He; cbn [negb].
  - destruct (len o <? 5) eqn:Hl.
    + apply Z.ltb_lt in Hl. pose proof (short_usdt o He Hl) as Ho.
      split; [split; discriminate|]. split; [done|].
      split; [discriminate|]. by intros [_ ?].
    + apply Z.ltb_ge in Hl.
      split; [split; discriminate|]. split.
      * split; [discriminate|]. intros Ho. rewrite Ho in Hl.
        vm_compute in Hl. by destruct Hl.
      * split; [discriminate|]. by intros [_ ?].
  - split; [split; discriminate|]. split; [|done].
    split; [discriminate|]. intros Ho. rewrite Ho in He. by vm_compute in He.
Qed.

Lemma strip_upper_strip s : strip (upper (strip s)) = strip (upper s).
Proof. by rewrite upper_strip, strip_idem. Qed.

Lemma strip_upper_upper s : strip (upper (upper s)) = strip (upper s).
Proof. by rewrite upper_idem. Qed.

Lemma upper_is_empty s : is_empty (upper s) = is_empty s.
Proof. by destruct s. Qed.

(** X3. The validators do not depend on letter case nor on surrounding
    blanks: [validate_side] and [validate_order_type] give the same result
    on [s], on its upper-case form and on its stripped form, and so does
    [validate_symbol], except that stripping a non-empty symbol made of
    blanks changes the error from the suffix error to the empty-symbol
    error. *)
Theorem validators_ignore_case_and_blanks s :
  validate_side (upper s) = validate_side s
  ∧ validate_side (strip s) = validate_side s
  ∧ validate_order_type (upper s) = validate_order_type s
  ∧ validate_order_type (strip s) = validate_order_type s
  ∧ validate_symbol (upper s) = validate_symbol s
  ∧ (strip s ≠ EmptyString → validate_symbol (strip s) = validate_symbol s)
  ∧ (s ≠ EmptyString → strip s = EmptyString →
     validate_symbol (strip s)
     = Raise (ValidationError "Symbol cannot be empty")
     ∧ validate_symbol s
       = Raise (ValidationError
                  "Symbol must end with 'USDT' for USDT-M futures")).
Proof.
  unfold validate_side, validate_order_type, validate_symbol.
  rewrite !strip_upper_strip, !strip_upper_upper, upper_is_empty.
  repeat (split; [reflexivity|]). split.
  - intros Hne. destruct (strip s) eqn:E; [done|]. cbn [is_empty].
    destruct s; [discriminate E|]. reflexivity.
  - intros Hs He. rewrite He. split; [reflexivity|].
    destruct s; [done|]. cbn [is_empty].
    assert (Hu : strip (upper (String a s)) = EmptyString).
    { by rewrite <- upper_strip, He. }
    by rewrite Hu.
Qed.

Lemma validators_ignore_case_and_blanks_witness :
  validate_symbol (strip " btcusdt ") = validate_symbol " btcusdt "
  ∧ validate_symbol "  "
    = Raise (ValidationError "Symbol must end with 'USDT' for USDT-M futures").
Proof.
  split.
  - apply (validators_ignore_case_and_blanks " btcusdt ").
    vm_compute. discriminate.
  - apply (validators_ignore_case_and_blanks "  ");
      [discriminate|vm_compute; reflexivity].
Defined.

(** X4. [validate_order_params] succeeds exactly when the symbol, the
    side, the order type and the quantity pass their validators and either
    the type is LIMIT with a price that is given and passes
    [validate_price], or the type is MARKET with no price given. *)
Theorem validation_success_criterion s d ty q p :
  is_ok (validate_order_params s d ty q p)
  = is_ok (validate_symbol s) && is_ok (validate_side d)
    && is_ok (validate_quantity q)
    && match validate_order_type ty with
       | Ok t =>
           if String.eqb t "LIMIT"
           then negb (price_missing p) && is_ok (validate_price p)
           else price_missing p
       | Raise _ => false
       end.
Proof.
  unfold validate_order_params, mbind, result_bind, rbind.
  destruct (validate_symbol s); [|done].
  destruct (validate_side d); [|done].
  destruct (validate_order_type ty) as [t|]; [|by rewrite andb_false_r].
  destruct (validate_quantity q); [|done]. cbn [is_ok andb].
  destruct (String.eqb t "LIMIT"); destruct (price_missing p); try done.
  by destruct (validate_price p).
Qed.

(** X5. A validated record holds the normal forms of the symbol, the
    side and the order type, the float parsed from the quantity string and,
    when it has a price, the float parsed from the price string; it has no
    key besides symbol, side, type, quantity and price. *)
Theorem validated_record_contents s d ty q p params :
  validate_order_params s d ty q p = Ok params →
  params !! "symbol" = Some (PStr (strip (upper s)))
  ∧ params !! "side" = Some (PStr (strip (upper d)))
  ∧ params !! "type" = Some (PStr (strip (upper ty)))
  ∧ (∃ x, PyFloat.float_of_str q = Some x
          ∧ params !! "quantity" = Some (PFloat x))
  ∧ (∀ v, params !! "price" = Some v →
          ∃ ps x, p = Some ps ∧ PyFloat.float_of_str ps = Some x
                  ∧ v = PFloat x)
  ∧ (∀ k, is_Some (params !! k) →
          k ∈ ["symbol"; "side"; "type"; "quantity"; "price"]%string).
Proof.
  intros H.
  destruct (validated_shape _ _ _ _ _ _ H)
    as (sym & sd & t & qty & Hs & Hd & Ht & Hq & Hshape).
  destruct (validate_symbol_ok _ _ Hs) as (-> & _).
  destruct (validate_side_ok _ _ Hd) as (-> & _).
  destruct (validate_order_type_ok _ _ Ht) as (Et & _).
  assert (Hqx : PyFloat.float_of_str q = Some qty).
  { revert Hq. unfold validate_quantity.
    destruct (PyFloat.float_of_str q) as [y|]; [|discriminate].
    destruct (PyFloat.le_zero y); [discriminate|]. by intros [= ->]. }
  destruct Hshape as [(-> & _ & ->) | (-> & Ep & x & Hx & ->)].
  - destruct (validated_record_lookup (strip (upper s)) (strip (upper d))
                "MARKET" qty) as (L1 & L2 & L3 & L4 & L5).
    rewrite <- Et.
    split; [done|]. split; [done|]. split; [done|].
    split; [by exists qty|]. split; [by rewrite L5|].
    intros k. unfold validated_record.
    rewrite !lookup_insert_is_Some', lookup_empty, !elem_of_cons.
    intros [<-|[<-|[<-|[<-|[? [=]]]]]]; tauto.
  - destruct (priced_record_lookup (strip (upper s)) (strip (upper d))
                "LIMIT" qty (PFloat x)) as (L1 & L2 & L3 & L4 & L5).
    rewrite <- Et.
    split; [done|]. split; [done|]. split; [done|].
    split; [by exists qty|]. split.
    + rewrite L5. intros v [= <-]. revert Hx. unfold validate_price.
      destruct p as [ps|]; [|discriminate].
      destruct (is_empty ps); [discriminate|].
      destruct (PyFloat.float_of_str ps) as [y|] eqn:Ey; [|discriminate].
      destruct (PyFloat.le_zero y); [discriminate|]. intros [= ->].
      by exists ps, x.
    + intros k. unfold validated_record.
      rewrite !lookup_insert_is_Some', lookup_empty, !elem_of_cons.
      intros [<-|[<-|[<-|[<-|[<-|[? [=]]]]]]]; tauto.
Qed.

Lemma validated_record_contents_witness :
  (<["price" := PFloat (S754_finite false 5498657650507776 (-41))]>
     (validated_record "ETHUSDT" "SELL" "LIMIT"
        (S754_finite false 5764607523034235 (-59))) : dict) !! "symbol"
  = Some (PStr (strip (upper " ethusdt"))).
Proof.
  refine (proj1 (validated_record_contents " ethusdt" "sell " "Limit" "0.01"
                   (Some "2500.5") _ _)).
  vm_compute. reflexivity.
Defined.

Import Client PriceFeed Shape.

Lemma py_eq_str_true v s : py_eq_str v s = true → v = PStr s.
Proof.
  destruct v; try discriminate. simpl. intros H.
  by apply String.eqb_eq in H as ->.
Qed.

Lemma scan_symbols_no_request symbol l : gets (scan_symbols symbol l).2 = [].
Proof.
  induction l as [|s r IH]; [done|].
  destruct s; try done.
  cbn [scan_symbols]. unfold getitem.
  destruct (d !! "symbol") as [v|]; [|done].
  mstep. destruct (py_eq_str v symbol); [done|]. by rewrite IH.
Qed.

(** The scan passes over the entries that do not match. *)
Lemma scan_symbols_skip symbol l1 l :
  Forall (passed_over symbol) l1 →
  (scan_symbols symbol (l1 ++ l)).1 = (scan_symbols symbol l).1.
Proof.
  induction 1 as [|e l1 (d & v & -> & Hd & Hv) _ IH]; [done|].
  cbn [app scan_symbols]. unfold getitem. rewrite Hd. mstep.
  by rewrite Hv.
Qed.

Lemma scan_symbols_sound symbol l d :
  (scan_symbols symbol l).1 = Ok (Some d) →
  PDict d ∈ l ∧ d !! "symbol" = Some (PStr symbol).
Proof.
  induction l as [|s r IH]; [discriminate|].
  destruct s; try discriminate.
  cbn [scan_symbols]. unfold getitem.
  destruct (d0 !! "symbol") as [v|] eqn:Hd; [|discriminate].
  mstep. destruct (py_eq_str v symbol) eqn:Hv.
  - mstep. intros [= <-]. split; [by left|].
    by rewrite Hd, (py_eq_str_true _ _ Hv).
  - intros H. destruct (IH H) as [Hin Hs]. split; [by right|done].
Qed.

Lemma scan_symbols_malformed symbol e l :
  malformed e → ∃ x, (scan_symbols symbol (e :: l)).1 = Raise x.
Proof.
  destruct e; cbn [malformed scan_symbols]; try (intros _; by eexists).
  intros Hd. unfold getitem. rewrite Hd. by eexists.
Qed.

(** The result of [get_symbol_info] in terms of the answer to its request. *)
Lemma get_symbol_info_result self symbol :
  (get_symbol_info self symbol).1
  = Ok match requests_get (net self) exchange_info_request with
       | Ok r =>
           if status_code r =? 200 then
             match rbind (rbind (json r) symbols_of) iterate with
             | Ok l =>
                 match (scan_symbols symbol l).1 with
                 | Ok o => o
                 | Raise _ => None
                 end
             | Raise _ => None
             end
           else None
       | Raise _ => None
       end.
Proof.
  unfold get_symbol_info. fold exchange_info_request. mstep.
  destruct (requests_get _ _) as [r|]; [|done].
  destruct (status_code r =? 200); [|done]. mstep.
  unfold rbind.
  destruct (json r) as [data|]; [|done]. mstep.
  destruct (symbols_of data) as [syms|]; [|done]. mstep.
  destruct (iterate syms) as [l|]; [|done].
  by destruct ((scan_symbols symbol l).1).
Qed.

(** X6. When [get_symbol_info] returns an entry, the exchange answered the
    request with status 200 and a JSON object whose ['symbols'] list
    contains that entry, and the ['symbol'] of the entry is exactly the
    requested string. *)
Theorem get_symbol_info_sound self symbol d :
  (get_symbol_info self symbol).1 = Ok (Some d) →
  d !! "symbol" = Some (PStr symbol)
  ∧ ∃ r data l,
      requests_get (net self) exchange_info_request = Ok r
      ∧ status_code r = 200
      ∧ json r = Ok (PDict data)
      ∧ data !! "symbols" = Some (PList l)
      ∧ PDict d ∈ l.
Proof.
  rewrite get_symbol_info_result. intros [= H].
  destruct (requests_get _ _) as [r|]; [|discriminate].
  destruct (status_code r =? 200) eqn:Es; [|discriminate].
  apply Z.eqb_eq in Es. unfold rbind in H.
  destruct (json r) as [data|] eqn:Ej; [|discriminate].
  destruct data as [| | | | | |data]; try discriminate.
  cbn [symbols_of] in H. unfold get_or in H.
  destruct (data !! "symbols") as [syms|] eqn:Ed; [|discriminate].
  cbn [default from_option id] in H.
  assert (Hno : ∀ l, Forall (λ e, ∃ s, e = PStr s) l →
                     (scan_symbols symbol l).1 ≠ Ok (Some d)).
  { intros l Hl Hs. apply scan_symbols_sound in Hs as [Hin _].
    rewrite Forall_forall in Hl. by destruct (Hl _ Hin) as [? ?]. }
  destruct syms as [| | | |s|l|dd]; try discriminate; cbn [iterate] in H.
  - exfalso. destruct (scan_symbols symbol (chars_of s)).1 as [o|] eqn:E;
      [|discriminate]. cbv beta iota in H. subst o. revert E. apply Hno.
    clear. induction s; constructor; eauto.
  - destruct (scan_symbols symbol l).1 as [o|] eqn:E; [|discriminate].
    cbv beta iota in H. subst o. destruct (scan_symbols_sound _ _ _ E) as [Hin Hs].
    split; [done|]. by exists r, data, l.
  - exfalso. destruct (scan_symbols symbol _).1 as [o|] eqn:E;
      [|discriminate]. cbv beta iota in H. subst o. revert E. apply Hno.
    apply Forall_fmap, Forall_true. intros x. by eexists.
Qed.

Lemma get_symbol_info_sound_witness :
  (<["status" := PStr "TRADING"]> (<["symbol" := PStr "BTCUSDT"]> ∅) : dict)
    !! "symbol" = Some (PStr "BTCUSDT").
Proof.
  refine (proj1 (get_symbol_info_sound
                   (client (Scenario.manager
                      (Scenario.exchange_with
                         [Scenario.instrument "ETHUSDT" "TRADING";
                          Scenario.instrument "BTCUSDT" "TRADING"]
                         (Ok Scenario.short_reply))))
                   "BTCUSDT" _ _)).
  vm_compute. reflexivity.
Defined.

(** X7. [get_symbol_info] returns the first entry of the instrument list
    whose ['symbol'] is the requested string, when every entry before it is
    a dict with another ['symbol']; later entries are not looked at. *)
Theorem get_symbol_info_first_match self symbol r data l1 d l2 :
  requests_get (net self) exchange_info_request = Ok r →
  status_code r = 200 →
  json r = Ok (PDict data) →
  data !! "symbols" = Some (PList (l1 ++ PDict d :: l2)) →
  Forall (passed_over symbol) l1 →
  d !! "symbol" = Some (PStr symbol) →
  (get_symbol_info self symbol).1 = Ok (Some d).
Proof.
  intros Hr Hs Hj Hd Hl1 Hsym.
  rewrite get_symbol_info_result, Hr, Hs, Hj. cbn [Z.eqb Pos.eqb rbind symbols_of].
  unfold get_or. rewrite Hd. cbn [default from_option id iterate].
  rewrite (scan_symbols_skip _ _ _ Hl1). cbn [scan_symbols].
  unfold getitem. rewrite Hsym. mstep.
  cbn [py_eq_str]. by rewrite String.eqb_refl.
Qed.

Lemma get_symbol_info_first_match_witness :
  (get_symbol_info
     (client (Scenario.manager
        (Scenario.exchange_with
           [Scenario.instrument "ETHUSDT" "TRADING";
            Scenario.instrument "BTCUSDT" "BREAK";
            Scenario.instrument "BTCUSDT" "TRADING"]
           (Ok Scenario.short_reply))))
     "BTCUSDT").1
  = Ok (Some (<["status" := PStr "BREAK"]>
                (<["symbol" := PStr "BTCUSDT"]> ∅))).
Proof.
  eapply (get_symbol_info_first_match _ "BTCUSDT" _ _
            [Scenario.instrument "ETHUSDT" "TRADING"] _
            [Scenario.instrument "BTCUSDT" "TRADING"]).
  - reflexivity.
  - reflexivity.
  - reflexivity.
  - vm_compute. reflexivity.
  - repeat constructor. eexists _, _. split; [reflexivity|].
    split; vm_compute; reflexivity.
  - vm_compute. reflexivity.
Defined.

(** X8. [get_symbol_info] returns [None], without raising, when the
    request raises, when the status is not 200, when the body is not JSON
    or not a JSON object, when it has no ['symbols'], when no entry
    matches, and also when an entry that is not a dict or has no ['symbol']
    comes before the entries that match. *)
Theorem get_symbol_info_absent self symbol :
  ((∃ e, requests_get (net self) exchange_info_request = Raise e)
   ∨ (∃ r, requests_get (net self) exchange_info_request = Ok r
           ∧ (status_code r ≠ 200
              ∨ (∃ e, json r = Raise e)
              ∨ (∃ data, json r = Ok data ∧ ∀ d, data ≠ PDict d)
              ∨ (∃ data, json r = Ok (PDict data)
                         ∧ data !! "symbols" = None)
              ∨ (∃ data l, json r = Ok (PDict data)
                           ∧ data !! "symbols" = Some (PList l)
                           ∧ Forall (passed_over symbol) l)
              ∨ (∃ data l1 e l2, json r = Ok (PDict data)
                           ∧ data !! "symbols" = Some (PList (l1 ++ e :: l2))
                           ∧ Forall (passed_over symbol) l1
                           ∧ malformed e)))) →
  (get_symbol_info self symbol).1 = Ok None.
Proof.
  rewrite get_symbol_info_result.
  intros [[e ->] | (r & -> & H)]; [done|].
  destruct (status_code r =? 200) eqn:Es; [|done]. apply Z.eqb_eq in Es.
  unfold rbind.
  destruct H as [H | [[e ->] | [(data & -> & Hd) | [(data & -> & Hd)
    | [(data & l & -> & Hd & Hl) | (data & l1 & e & l2 & -> & Hd & Hl & He)]]]]];
    try done.
  - destruct data; try done. by destruct (Hd d).
  - cbn [symbols_of]. unfold get_or. by rewrite Hd.
  - cbn [symbols_of]. unfold get_or. rewrite Hd. cbn [default from_option id iterate].
    rewrite <- (app_nil_r l), (scan_symbols_skip _ _ _ Hl). done.
  - cbn [symbols_of]. unfold get_or. rewrite Hd. cbn [default from_option id iterate].
    rewrite (scan_symbols_skip _ _ _ Hl).
    by destruct (scan_symbols_malformed symbol e l2 He) as [x ->].
Qed.

Lemma get_symbol_info_absent_witness :
  (get_symbol_info
     (client (Scenario.manager
        (Scenario.exchange_with
           [Scenario.instrument "ETHUSDT" "TRADING"; PStr "BTCUSDT";
            Scenario.instrument "BTCUSDT" "TRADING"]
           (Ok Scenario.short_reply))))
     "BTCUSDT").1 = Ok None
  ∧ (get_symbol_info
       (client (Scenario.manager (Scenario.exchange_status 503)))
       "BTCUSDT").1 = Ok None
  ∧ (get_symbol_info
       (client (Scenario.manager Scenario.exchange_down)) "BTCUSDT").1
    = Ok None.
Proof.
  split; [|split].
  - apply get_symbol_info_absent. right. eexists. split; [reflexivity|].
    do 5 right. eexists _, [Scenario.instrument "ETHUSDT" "TRADING"],
      (PStr "BTCUSDT"), [Scenario.instrument "BTCUSDT" "TRADING"].
    split; [reflexivity|]. split; [vm_compute; reflexivity|].
    split; [|exact I].
    repeat constructor. eexists _, _. split; [reflexivity|].
    split; vm_compute; reflexivity.
  - apply get_symbol_info_absent. right. eexists. split; [reflexivity|].
    left. cbn. discriminate.
  - apply get_symbol_info_absent. left. by eexists.
Defined.

Lemma get_symbol_info_gets self symbol :
  gets (get_symbol_info self symbol).2 = [exchange_info_request].
Proof.
  unfold get_symbol_info. fold exchange_info_request. mstep.
  destruct (requests_get _ _) as [r|]; [|done].
  destruct (status_code r =? 200); [|done]. mstep.
  destruct (json r) as [data|]; [|done]. mstep.
  destruct (symbols_of data) as [syms|]; [|done]. mstep.
  destruct (iterate syms) as [l|]; [|done].
  cbn [gets omap app]. rewrite scan_symbols_no_request.
  by destruct ((scan_symbols symbol l).1).
Qed.

(** X9. Whatever the exchange answers, [get_symbol_info] returns without
    raising after exactly one GET of the exchange information, sent without
    headers and parameters, and it sends no order. *)
Theorem get_symbol_info_one_request self symbol :
  ∃ o t,
    get_symbol_info self symbol = (Ok o, t)
    ∧ gets t = [exchange_info_request]
    ∧ posts t = []
    ∧ calls t = [get_symbol_info_m].
Proof.
  destruct (get_symbol_info_total self symbol) as [o Ho].
  destruct (get_symbol_info_trace self symbol) as [Hc Hp].
  exists o, (get_symbol_info self symbol).2.
  split; [by rewrite <- Ho, <- pair_eta|].
  split; [apply get_symbol_info_gets|done].
Qed.

(** X10. [get_current_price] never raises, sends exactly one GET of the
    ticker with the symbol as its only parameter and no order; it returns
    a price exactly when the answer has status 200 and a JSON object whose
    ['price'] converts to a float, and that float is the price. *)
Theorem get_current_price_spec self symbol :
  ∃ o t,
    get_current_price self symbol = (Ok o, t)
    ∧ gets t = [ticker_request symbol]
    ∧ posts t = []
    ∧ ∀ p, o = Some p ↔
        ∃ r data v,
          requests_get (net self) (ticker_request symbol) = Ok r
          ∧ status_code r = 200
          ∧ json r = Ok (PDict data)
          ∧ data !! "price" = Some v
          ∧ py_float v = Ok p.
Proof.
  rewrite (pair_eta (get_current_price self symbol)).
  unfold get_current_price. mstep.
  destruct (requests_get _ _) as [r|e] eqn:Er.
  2:{ eexists _, _. split; [reflexivity|]. repeat split; try done.
      by intros (? & ? & ? & [=] & _). }
  destruct (status_code r =? 200) eqn:Es.
  2:{ eexists _, _. split; [reflexivity|]. repeat split; try done.
      intros (? & ? & ? & [= <-] & Hs & _). apply Z.eqb_neq in Es. done. }
  apply Z.eqb_eq in Es. mstep.
  destruct (json r) as [data|e] eqn:Ej.
  2:{ eexists _, _. split; [reflexivity|]. repeat split; try done.
      intros (? & ? & ? & [= <-] & _ & Hj & _). congruence. }
  mstep.
  destruct (subscript data "price") as [v|e] eqn:Ev.
  2:{ eexists _, _. split; [reflexivity|]. repeat split; try done.
      intros (? & d & v & [= <-] & _ & Hj & Hv & _).
      rewrite Ej in Hj. injection Hj as ->. cbn [subscript] in Ev.
      unfold getitem in Ev. by rewrite Hv in Ev. }
  mstep.
  assert (Hdata : ∃ d, data = PDict d ∧ d !! "price" = Some v).
  { destruct data; try discriminate. exists d. split; [done|].
    cbn [subscript] in Ev. unfold getitem in Ev.
    destruct (d !! "price"); [by injection Ev as ->|discriminate]. }
  destruct Hdata as (d & -> & Hd).
  destruct (py_float v) as [p|e] eqn:Ep.
  - eexists _, _. split; [reflexivity|]. repeat split; try done.
    + intros [= <-]. by exists r, d, v.
    + intros (? & ? & ? & [= <-] & _ & Hj & Hv & Hp).
      rewrite Ej in Hj. injection Hj as <-. rewrite Hd in Hv.
      injection Hv as <-. congruence.
  - eexists _, _. split; [reflexivity|]. repeat split; try done.
    intros (? & ? & ? & [= <-] & _ & Hj & Hv & Hp).
    rewrite Ej in Hj. injection Hj as <-. rewrite Hd in Hv.
    injection Hv as <-. congruence.
Qed.

(** X11. [place_market_order] and [place_limit_order] each issue exactly
    one order POST and no GET, with the parameters symbol, side, type,
    quantity (price and timeInForce for a limit order) and timestamp in
    this order, and return or re-raise exactly what the POST returned or
    raised: nothing is retried and no exception is replaced. *)
Theorem order_methods_pass_through self symbol side quantity price tif :
  let market := market_order_params self symbol side quantity in
  let limit := limit_order_params self symbol side quantity price tif in
  market = [("symbol", PStr symbol); ("side", PStr side);
            ("type", PStr "MARKET"); ("quantity", quantity);
            ("timestamp", PInt (clock_ms (net self)))]
  ∧ limit = [("symbol", PStr symbol); ("side", PStr side);
             ("type", PStr "LIMIT"); ("quantity", quantity);
             ("price", price); ("timeInForce", PStr tif);
             ("timestamp", PInt (clock_ms (net self)))]
  ∧ (place_market_order self symbol side quantity).1
    = futures_create_order (net self) market
  ∧ posts (place_market_order self symbol side quantity).2 = [market]
  ∧ gets (place_market_order self symbol side quantity).2 = []
  ∧ (place_limit_order self symbol side quantity price tif).1
    = futures_create_order (net self) limit
  ∧ posts (place_limit_order self symbol side quantity price tif).2 = [limit]
  ∧ gets (place_limit_order self symbol side quantity price tif).2 = [].
Proof.
  intros market limit. subst market limit.
  destruct (place_market_order_run self symbol side quantity)
    as (M1 & M2 & _).
  destruct (place_limit_order_run self symbol side quantity price tif)
    as (L1 & L2 & _).
  assert (Hq : ∀ what e, gets (log_and_reraise (A := dict) what e).2 = [])
    by (by intros what []).
  split; [done|]. split; [done|]. split; [done|]. split; [done|]. split.
  { clear -Hq. unfold place_market_order. mstep.
    destruct (futures_create_order (net self)
                (market_order_params self symbol side quantity));
      mstep; rewrite ?Hq; reflexivity. }
  split; [done|]. split; [done|].
  clear -Hq. unfold place_limit_order. mstep.
  destruct (futures_create_order (net self)
              (limit_order_params self symbol side quantity price tif));
    mstep; rewrite ?Hq; reflexivity.
Qed.

Import UrlEncode Client Shape.

Lemma round_length st kw : List.length (SHA256.round st kw) = List.length st.
Proof.
  unfold SHA256.round.
  do 9 (destruct st as [|? st]; [reflexivity|]). reflexivity.
Qed.

Lemma rounds_length l st :
  List.length (foldl SHA256.round st l) = List.length st.
Proof.
  revert st. induction l as [|kw l IH]; intros st; [done|].
  cbn [foldl]. by rewrite IH, round_length.
Qed.

Lemma compress_length h block :
  List.length (SHA256.compress h block) = List.length h.
Proof.
  unfold SHA256.compress. rewrite length_zip_with, rounds_length. lia.
Qed.

Lemma compress_all_length blocks h :
  List.length (foldl SHA256.compress h blocks) = List.length h.
Proof.
  revert h. induction blocks as [|b l IH]; intros h; [done|].
  cbn [foldl]. by rewrite IH, compress_length.
Qed.

Lemma be_bytes_range n x : Forall (λ b, 0 ≤ b < 256) (Bytes.be_bytes n x).
Proof.
  induction n as [|n IH]; cbn [Bytes.be_bytes]; constructor; [|done].
  apply Z.mod_pos_bound. lia.
Qed.

Lemma be_bytes_length n x : List.length (Bytes.be_bytes n x) = n.
Proof. induction n as [|n IH]; cbn [Bytes.be_bytes List.length]; congruence. Qed.

Lemma words_bytes ws :
  List.length (List.concat (map (Bytes.be_bytes 4) ws))
  = (4 * List.length ws)%nat
  ∧ Forall (λ b, 0 ≤ b < 256) (List.concat (map (Bytes.be_bytes 4) ws)).
Proof.
  induction ws as [|w ws [IH1 IH2]]; [by split|].
  cbn [map List.concat]. split.
  - rewrite length_app, be_bytes_length, IH1. cbn [List.length]. lia.
  - apply Forall_app. split; [apply be_bytes_range|done].
Qed.

(** A digest has thirty-two bytes. *)
Lemma sha256_shape msg :
  List.length (SHA256.sha256 msg) = 32%nat
  ∧ Forall (λ b, 0 ≤ b < 256) (SHA256.sha256 msg).
Proof.
  unfold SHA256.sha256. cbv zeta.
  destruct (words_bytes (foldl SHA256.compress SHA256.H0
              (Bytes.chunks (List.length (SHA256.pad msg)) 64
                 (SHA256.pad msg)))) as [H1 H2].
  split; [|done]. by rewrite H1, compress_all_length.
Qed.

Lemma hex_digit_lower n :
  0 ≤ n < 16 → is_lower_hex (Bytes.hex_digit false n) = true.
Proof.
  intros Hn. rewrite <- (Z2Nat.id n) by lia.
  assert (Hk : (Z.to_nat n < 16)%nat) by lia.
  generalize dependent (Z.to_nat n). clear. intros k Hk.
  do 16 (destruct k as [|k]; [reflexivity|]). lia.
Qed.

Lemma hex_lower_shape bs :
  Forall (λ b, 0 ≤ b < 256) bs →
  String.length (Bytes.hex_lower bs) = (2 * List.length bs)%nat
  ∧ all_chars is_lower_hex (Bytes.hex_lower bs) = true.
Proof.
  induction 1 as [|b bs Hb _ [IH1 IH2]]; [by split|].
  unfold Bytes.hex_lower in *. cbn [foldr Bytes.hex_byte String.length all_chars].
  rewrite IH1, IH2, !hex_digit_lower.
  - split; [cbn [List.length]; lia|done].
  - apply Z.mod_pos_bound. lia.
  - split; [apply Z.div_pos; lia|apply Z.div_lt_upper_bound; lia].
Qed.

(** X12. Every signature is a string of sixty-four lowercase hexadecimal
    digits, whatever the secret and the parameters. *)
Theorem signature_format self ps :
  String.length (_generate_signature self ps) = 64%nat
  ∧ all_chars is_lower_hex (_generate_signature self ps) = true.
Proof.
  unfold _generate_signature, HMAC.hexdigest, HMAC.hmac_sha256. cbv zeta.
  match goal with
  | |- context [Bytes.hex_lower (SHA256.sha256 ?m)] =>
      destruct (sha256_shape m) as [Hl Hr];
      destruct (hex_lower_shape _ Hr) as [H1 H2]
  end.
  by rewrite H1, H2, Hl.
Qed.

Lemma safe_not_space c : always_safe c = true → Ascii.eqb c " " = false.
Proof.
  destruct (Ascii.eqb_spec c " ") as [->|]; [|done]. by vm_compute.
Qed.

Lemma quote_plus_safe s : all_chars always_safe s = true → quote_plus s = s.
Proof.
  induction s as [|c r IH]; [done|]. cbn [all_chars quote_plus].
  intros [Hc Hr]%andb_true_iff. unfold quote_char.
  by rewrite (safe_not_space _ Hc), Hc, (IH Hr).
Qed.

Lemma digit_safe n :
  0 ≤ n < 10 → always_safe (ascii_of_nat (Z.to_nat (48 + n))) = true.
Proof.
  intros Hn. rewrite <- (Z2Nat.id n) by lia.
  assert (Hk : (Z.to_nat n < 10)%nat) by lia.
  generalize dependent (Z.to_nat n). clear. intros k Hk.
  do 10 (destruct k as [|k]; [reflexivity|]). lia.
Qed.

Lemma digits_safe fuel n acc :
  0 ≤ n → all_chars always_safe acc = true →
  all_chars always_safe (digits_of_pos fuel n acc) = true.
Proof.
  revert n acc. induction fuel as [|f IH]; intros n acc Hn Hacc; [done|].
  cbn [digits_of_pos].
  assert (Hd : all_chars always_safe
                 (String (ascii_of_nat (Z.to_nat (48 + n mod 10))) acc) = true).
  { cbn [all_chars]. rewrite Hacc, digit_safe; [done|].
    apply Z.mod_pos_bound. lia. }
  destruct (n <? 10); [done|].
  apply IH; [apply Z.div_pos; lia|done].
Qed.

(** A decimal numeral needs no quoting. *)
Lemma quote_plus_int z : quote_plus (str_of_int z) = str_of_int z.
Proof.
  apply quote_plus_safe. unfold str_of_int.
  pose proof (digits_safe (S (Z.to_nat (Z.log2 (Z.abs z)))) (Z.abs z)
                EmptyString (Z.abs_nonneg z) eq_refl) as H.
  destruct (z <? 0); [|done]. cbn [all_chars]. by rewrite H.
Qed.

(** X13. The request of [test_connection] carries the API key in the
    header X-MBX-APIKEY and two parameters, the timestamp and then the
    signature; the message that is signed is [timestamp=] followed by the
    timestamp in decimal, and the request is the only one sent. *)
Theorem account_request_signed self :
  let stamp := clock_ms (net self) in
  let message := ("timestamp=" +:+ str_of_int stamp)%string in
  urlencode [("timestamp", QInt stamp)] = message
  ∧ req_params (account_request self)
    = [("timestamp", QInt stamp);
       ("signature",
        QStr (HMAC.hexdigest (Bytes.encode_utf8 (api_secret self))
                (Bytes.encode_utf8 message)))]
  ∧ req_headers (account_request self) = [("X-MBX-APIKEY", api_key self)]
  ∧ gets (test_connection self).2 = [account_request self].
Proof.
  intros stamp message.
  assert (Hm : urlencode [("timestamp", QInt stamp)] = message).
  { unfold urlencode. cbn [map join_amp]. unfold encode_item.
    cbn [fst snd str_of]. by rewrite quote_plus_int. }
  split; [done|]. split.
  { unfold account_request, _generate_signature. cbn [req_params app].
    fold stamp. by rewrite Hm. }
  split; [done|].
  unfold test_connection.
  generalize (account_request self) as req. intros req. mstep.
  destruct (requests_get (net self) req) as [r|]; [|done].
  by destruct (status_code r =? 200).
Qed.

Import PyStr Validators Client Orders Summary Shape.

Lemma trading_not_falsy (info : dict) :
  info !! "status" = Some (PStr "TRADING") →
  falsy (Some info) = false
  ∧ py_eq_str (get_or (default ∅ (Some info)) "status" PNone) "TRADING" = true.
Proof.
  intros Hs. split.
  - unfold falsy. apply bool_decide_eq_false. intros Hd.
    apply (f_equal (λ X : gset string, bool_decide ("status"%string ∈ X))) in Hd.
    rewrite bool_decide_eq_true_2 in Hd by (apply elem_of_dom; eauto).
    by rewrite bool_decide_eq_false_2 in Hd by set_solver.
  - cbn [default from_option id]. unfold get_or. by rewrite Hs.
Qed.

(** X14. For an order that passes validation on a symbol found with status
    TRADING, [place_order] calls [get_symbol_info] and then exactly one
    placing method chosen by the validated type, issues one POST built from
    the validated symbol, side, quantity (and price, with time in force
    GTC, for a limit order), and returns or raises what that POST returned
    or raised. *)
Theorem tradable_order_dispatched self s d ty q p params info :
  validate_order_params s d ty q p = Ok params →
  (get_symbol_info (client self) (strip (upper s))).1 = Ok (Some info) →
  info !! "status" = Some (PStr "TRADING") →
  ∃ sd qty op m,
    params !! "side" = Some (PStr sd)
    ∧ params !! "quantity" = Some qty
    ∧ ((params !! "type" = Some (PStr "MARKET")
        ∧ op = market_order_params (client self) (strip (upper s)) sd qty
        ∧ m = place_market_order_m)
       ∨ (params !! "type" = Some (PStr "LIMIT")
          ∧ (∃ x, params !! "price" = Some x
                  ∧ op = limit_order_params (client self) (strip (upper s))
                           sd qty x "GTC")
          ∧ m = place_limit_order_m))
    ∧ (place_order self s d ty q p).1
      = futures_create_order (net (client self)) op
    ∧ posts (place_order self s d ty q p).2 = [op]
    ∧ calls (place_order self s d ty q p).2 = [get_symbol_info_m; m].
Proof.
  intros Hv Hinfo Hst.
  destruct (place_order_after_validation self _ _ _ _ _ _ Hv)
    as (sd' & t' & qty' & info' & Ht' & Hinfo' & Hrun).
  destruct (validated_fields _ _ _ _ _ _ Hv)
    as (sd & t & qty & _ & Hsym & Hsd & Ht & Hq & Hprice).
  cbv zeta in *. rewrite Ht in Ht'. inversion Ht'; subst t'. clear Ht'.
  rewrite Hinfo in Hinfo'. inversion Hinfo'; subst info'. clear Hinfo'.
  destruct (get_symbol_info_trace (client self) (strip (upper s))) as [Hc Hp].
  destruct (trading_not_falsy info Hst) as [Hf Htr].
  rewrite Hrun, Hf, Htr. cbn [negb fst snd].
  rewrite !posts_app, !calls_app, Hp, Hc. cbn [posts calls omap app].
  destruct Hprice as [[-> _] | [-> [x Hx]]].
  - change (py_eq_str (PStr "MARKET") "MARKET") with true. cbv iota zeta.
    destruct (place_market_order_from_params self params _ _ _ Hsym Hsd Hq)
      as (H1 & H2 & H3 & _). cbv zeta in *.
    eexists sd, (PFloat qty), _, _. split; [done|]. split; [done|].
    split; [left; by repeat split|]. by rewrite H1, H2, H3.
  - change (py_eq_str (PStr "LIMIT") "MARKET") with false. cbv iota zeta.
    destruct (place_limit_order_from_params self params _ _ _ _ Hsym Hsd Hq Hx)
      as (H1 & H2 & H3 & _). cbv zeta in *.
    eexists sd, (PFloat qty), _, _. split; [done|]. split; [done|].
    split; [right; split; [done|]; split; [by eexists|done]|].
    by rewrite H1, H2, H3.
Qed.

Lemma log_order_response_gets self response :
  gets (_log_order_response self response).2 = [].
Proof.
  unfold _log_order_response, banner, log_field. mstep.
  destruct (response !! "avgPrice") as [v|].
  - destruct (negb (blank_avg_price v)); reflexivity.
  - reflexivity.
Qed.

Lemma log_and_reraise_gets {A} what e :
  gets (log_and_reraise (A := A) what e).2 = [].
Proof. by destruct e. Qed.

Lemma place_market_order_from_params_gets self (params : dict) sym sd v :
  params !! "symbol" = Some (PStr sym) →
  params !! "side" = Some (PStr sd) →
  params !! "quantity" = Some v →
  gets (_place_market_order self params).2 = [].
Proof.
  intros Hsym Hsd Hq.
  unfold _place_market_order, banner, getitem, getitem_str.
  rewrite Hsym, Hsd, Hq. mstep.
  unfold place_market_order. mstep.
  destruct (futures_create_order (net (client self))
              (market_order_params (client self) sym sd v)) as [r|e]; mstep.
  - destruct (log_order_response_run self r) as (L1 & _).
    rewrite ?L1, ?log_order_response_gets. mstep.
    rewrite ?L1, ?log_order_response_gets. reflexivity.
  - rewrite ?log_and_reraise_fst, log_and_reraise_gets. reflexivity.
Qed.

Lemma place_limit_order_from_params_gets self (params : dict) sym sd v x :
  params !! "symbol" = Some (PStr sym) →
  params !! "side" = Some (PStr sd) →
  params !! "quantity" = Some v →
  params !! "price" = Some x →
  gets (_place_limit_order self params).2 = [].
Proof.
  intros Hsym Hsd Hq Hx.
  unfold _place_limit_order, banner, getitem, getitem_str.
  rewrite Hsym, Hsd, Hq, Hx. mstep.
  unfold place_limit_order. mstep.
  destruct (futures_create_order (net (client self))
              (limit_order_params (client self) sym sd v x "GTC")) as [r|e];
    mstep.
  - destruct (log_order_response_run self r) as (L1 & _).
    rewrite ?L1, ?log_order_response_gets. mstep.
    rewrite ?L1, ?log_order_response_gets. reflexivity.
  - rewrite ?log_and_reraise_fst, log_and_reraise_gets. reflexivity.
Qed.

(** The three ways [place_order] can run: it stops at validation, it
    stops at the tradability check, or it sends one order. *)
Lemma place_order_cases self s d ty q p :
  let run := place_order self s d ty q p in
  (∃ e, validate_order_params s d ty q p = Raise e
        ∧ run.1 = Raise e
        ∧ posts run.2 = [] ∧ calls run.2 = [] ∧ gets run.2 = [])
  ∨ (∃ msg, is_ok (validate_order_params s d ty q p) = true
            ∧ run.1 = Raise (ValidationError msg)
            ∧ posts run.2 = [] ∧ calls run.2 = [get_symbol_info_m]
            ∧ gets run.2 = [PriceFeed.exchange_info_request])
  ∨ (∃ op m, is_ok (validate_order_params s d ty q p) = true
             ∧ run.1 = futures_create_order (net (client self)) op
             ∧ posts run.2 = [op] ∧ calls run.2 = [get_symbol_info_m; m]
             ∧ gets run.2 = [PriceFeed.exchange_info_request]).
Proof.
  intros run. subst run.
  destruct (validate_order_params s d ty q p) as [params|e] eqn:Hv.
  2:{ left. exists e. by rewrite (place_order_invalid self _ _ _ _ _ _ Hv). }
  right.
  destruct (place_order_after_validation self _ _ _ _ _ _ Hv)
    as (sd' & t' & qty' & info & Ht' & Hinfo & Hrun).
  destruct (validated_fields _ _ _ _ _ _ Hv)
    as (sd & t & qty & _ & Hsym & Hsd & Ht & Hq & Hprice).
  cbv zeta in *. rewrite Ht in Ht'. inversion Ht'; subst t'. clear Ht'.
  destruct (get_symbol_info_trace (client self) (strip (upper s))) as [Hc Hp].
  pose proof (get_symbol_info_gets (client self) (strip (upper s))) as Hg.
  rewrite Hrun.
  destruct (falsy info).
  { left. eexists. cbn [fst snd].
    rewrite posts_app, calls_app, gets_app, Hp, Hc, Hg. by repeat split. }
  destruct (negb _).
  { left. eexists. cbn [fst snd].
    rewrite posts_app, calls_app, gets_app, Hp, Hc, Hg. by repeat split. }
  right. cbn [fst snd].
  rewrite !posts_app, !calls_app, !gets_app, Hp, Hc, Hg.
  cbn [posts calls gets omap app].
  destruct Hprice as [[-> _] | [-> [x Hx]]].
  - change (py_eq_str (PStr "MARKET") "MARKET") with true. cbv iota.
    destruct (place_market_order_from_params self params _ _ _ Hsym Hsd Hq)
      as (H1 & H2 & H3 & _). cbv zeta in *.
    rewrite H1, H2, H3,
      (place_market_order_from_params_gets self params _ _ _ Hsym Hsd Hq).
    eexists _, _. by repeat split.
  - change (py_eq_str (PStr "LIMIT") "MARKET") with false. cbv iota.
    destruct (place_limit_order_from_params self params _ _ _ _ Hsym Hsd Hq Hx)
      as (H1 & H2 & H3 & _). cbv zeta in *.
    rewrite H1, H2, H3,
      (place_limit_order_from_params_gets self params _ _ _ _ Hsym Hsd Hq Hx).
    eexists _, _. by repeat split.
Qed.



(** X16. Every exception raised by [place_order] is either a
    [ValidationError] or the exception raised by the one order POST it
    issued. *)
Theorem place_order_error_origin self s d ty q p e :
  (place_order self s d ty q p).1 = Raise e →
  is_validation_error e = true
  ∨ ∃ op, posts (place_order self s d ty q p).2 = [op]
          ∧ futures_create_order (net (client self)) op = Raise e.
Proof.
  intros He.
  destruct (place_order_cases self s d ty q p)
    as [(e' & Hv & H1 & _)
       | [(msg & _ & H1 & _) | (op & m & _ & H1 & H2 & _)]].
  - left. rewrite H1 in He. injection He as <-.
    by apply (validation_failure_kind _ _ _ _ _ _ Hv).
  - left. rewrite H1 in He. by injection He as <-.
  - right. exists op. split; [done|]. by rewrite <- H1.
Qed.

Lemma place_order_error_origin_witness :
  is_validation_error (BinanceAPIException 400 "Invalid symbol.") = true
  ∨ ∃ op,
      posts (place_order
               (Scenario.manager
                  (Scenario.exchange_with
                     [Scenario.instrument "BTCUSDT" "TRADING"]
                     (Raise (BinanceAPIException 400 "Invalid symbol."))))
               "BTCUSDT" "BUY" "MARKET" "0.01" None).2 = [op]
      ∧ futures_create_order
          (net (client
             (Scenario.manager
                (Scenario.exchange_with
                   [Scenario.instrument "BTCUSDT" "TRADING"]
                   (Raise (BinanceAPIException 400 "Invalid symbol."))))))
          op
        = Raise (BinanceAPIException 400 "Invalid symbol.").
Proof.
  apply place_order_error_origin. vm_compute. reflexivity.
Defined.

Lemma tradable_order_dispatched_witness :
  ∃ op,
    posts (place_order
             (Scenario.manager
                (Scenario.exchange_with
                   [Scenario.instrument "ETHUSDT" "TRADING"]
                   (Ok Scenario.short_reply)))
             "ethusdt" "sell" "limit" "0.01" (Some "2500.5")).2 = [op]
    ∧ (place_order
         (Scenario.manager
            (Scenario.exchange_with
               [Scenario.instrument "ETHUSDT" "TRADING"]
               (Ok Scenario.short_reply)))
         "ethusdt" "sell" "limit" "0.01" (Some "2500.5")).1
      = Ok Scenario.short_reply.
Proof.
  destruct (tradable_order_dispatched
              (Scenario.manager
                 (Scenario.exchange_with
                    [Scenario.instrument "ETHUSDT" "TRADING"]
                    (Ok Scenario.short_reply)))
              "ethusdt" "sell" "limit" "0.01" (Some "2500.5")
              (<["price" := PFloat (S754_finite false 5498657650507776 (-41))]>
                 (validated_record "ETHUSDT" "SELL" "LIMIT"
                    (S754_finite false 5764607523034235 (-59))))
              (<["status" := PStr "TRADING"]>
                 (<["symbol" := PStr "ETHUSDT"]> ∅)))
    as (sd & qty & op & m & _ & _ & _ & H1 & H2 & _).
  - vm_compute. reflexivity.
  - vm_compute. reflexivity.
  - vm_compute. reflexivity.
  - exists op. split; [exact H2|exact H1].
Defined.

Ltac pick_line H :=
  repeat (apply elem_of_cons in H as [H|H]; [try discriminate H|]);
  try (by apply elem_of_nil in H).

(** X17. [_log_order_response] writes the average-price record exactly
    when the response has an ['avgPrice'] that is not one of ['0'], [0],
    the empty string and [None]. *)
Theorem average_price_logged self response v :
  Logged INFO [Lit "Average Price:  "; Val v]
  ∈ (_log_order_response self response).2
  ↔ response !! "avgPrice" = Some v ∧ blank_avg_price v = false.
Proof.
  unfold _log_order_response, banner, log_field. mstep.
  destruct (response !! "avgPrice") as [w|].
  - destruct (blank_avg_price w) eqn:Eb; cbn [negb fst snd emit ret app].
    + split.
      * intros H. pick_line H.
      * intros [[= ->] Hv]. congruence.
    + split.
      * intros H. pick_line H. by injection H as ->.
      * intros [[= ->] _]. do 12 right. by left.
  - cbn [fst snd ret app]. split.
    + intros H. pick_line H.
    + by intros [[=] _].
Qed.

Lemma type_is_limit (response : dict) :
  py_eq_str (get_or response "type" PNone) "LIMIT" = true
  ↔ response !! "type" = Some (PStr "LIMIT").
Proof.
  unfold get_or. destruct (response !! "type") as [t|];
    cbn [default from_option id].
  - split; [by intros ->%py_eq_str_true|]. by intros [= ->].
  - split; [discriminate|discriminate].
Qed.

(** X18. [print_order_summary] prints the price line exactly when the
    type of the response is LIMIT and the average-price line exactly when
    ['avgPrice'] is present and not blank; the executed quantity defaults
    to ['0']; the number of print calls is twelve plus one for each of the
    two optional lines. *)
Theorem summary_lines self response :
  let out := print_order_summary self response in
  ([Lit "Price:           "; Val (get_or response "price" PNone)] ∈ out
   ↔ response !! "type" = Some (PStr "LIMIT"))
  ∧ (∀ v, [Lit "Average Price:   "; Val v] ∈ out
          ↔ response !! "avgPrice" = Some v ∧ blank_avg_price v = false)
  ∧ [Lit "Executed Qty:    "; Val (get_or response "executedQty" (PStr "0"))]
    ∈ out
  ∧ List.length out
    = (12 + (if py_eq_str (get_or response "type" PNone) "LIMIT"
             then 1 else 0)
          + match response !! "avgPrice" with
            | Some v => if blank_avg_price v then 0 else 1
            | None => 0
            end)%nat.
Proof.
  intros out. subst out. unfold print_order_summary.
  rewrite <- type_is_limit.
  destruct (py_eq_str (get_or response "type" PNone) "LIMIT");
    (destruct (response !! "avgPrice") as [w|];
     [destruct (blank_avg_price w) eqn:Ew|]); cbn [negb app List.length].
  all: split; [split; [intros H; pick_line H; try done|
                       intros; try done; by repeat constructor]|].
  all: split; [intros v; split;
                 [intros H; pick_line H; try (by injection H as ->)|
                  intros [[= ->] Hv]; try congruence; by repeat constructor]|].
  all: split; [by repeat constructor|reflexivity].
Qed.

Lemma code_range c : 0 ≤ PyStr.code c < 256.
Proof.
  unfold PyStr.code. pose proof (nat_ascii_bounded c). lia.
Qed.

Lemma code_inj c c' : PyStr.code c = PyStr.code c' → c = c'.
Proof.
  unfold PyStr.code. intros H. apply Nat2Z.inj in H.
  by rewrite <- (ascii_nat_embedding c), H, ascii_nat_embedding.
Qed.

Lemma hex_digit_upper_quoted n :
  0 ≤ n < 16 → always_safe (Bytes.hex_digit true n) = true.
Proof.
  intros Hn. rewrite <- (Z2Nat.id n) by lia.
  assert (Hk : (Z.to_nat n < 16)%nat) by lia.
  generalize dependent (Z.to_nat n). clear. intros k Hk.
  do 16 (destruct k as [|k]; [reflexivity|]). lia.
Qed.

Lemma hex_digit_upper_inj n m :
  0 ≤ n < 16 → 0 ≤ m < 16 →
  Bytes.hex_digit true n = Bytes.hex_digit true m → n = m.
Proof.
  intros Hn Hm. rewrite <- (Z2Nat.id n), <- (Z2Nat.id m) by lia.
  assert (Hk : (Z.to_nat n < 16)%nat) by lia.
  assert (Hj : (Z.to_nat m < 16)%nat) by lia.
  generalize dependent (Z.to_nat m). generalize dependent (Z.to_nat n).
  clear. intros k Hk j Hj.
  do 16 (destruct k as [|k];
         [do 16 (destruct j as [|j]; [first [reflexivity|discriminate]|]); lia|]).
  lia.
Qed.

Lemma div16_range b : 0 ≤ b < 256 → 0 ≤ b / 16 < 16 ∧ 0 ≤ b mod 16 < 16.
Proof.
  intros Hb. split.
  - split; [apply Z.div_pos; lia|apply Z.div_lt_upper_bound; lia].
  - apply Z.mod_pos_bound. lia.
Qed.

(** The three shapes of a quoted character. *)
Lemma quote_char_cases c rest :
  (c = " "%char ∧ quote_char c rest = String "+" rest)
  ∨ (always_safe c = true ∧ quote_char c rest = String c rest)
  ∨ (c ≠ " "%char ∧ always_safe c = false
     ∧ quote_char c rest
       = String "%" (Bytes.hex_byte true (PyStr.code c) rest)).
Proof.
  unfold quote_char. destruct (Ascii.eqb_spec c " ") as [->|Hc]; [by left|].
  destruct (always_safe c) eqn:Hs; [right; by left|right; by right].
Qed.

Lemma quote_plus_chars s : all_chars is_quoted_char (quote_plus s) = true.
Proof.
  induction s as [|c r IH]; [done|]. cbn [quote_plus].
  destruct (quote_char_cases c (quote_plus r))
    as [[-> ->] | [[Hs ->] | (_ & _ & ->)]]; cbn [all_chars Bytes.hex_byte].
  - by rewrite IH.
  - unfold is_quoted_char at 1. by rewrite Hs, IH.
  - destruct (div16_range _ (code_range c)) as [H1 H2].
    unfold is_quoted_char at 1 2 3.
    by rewrite !hex_digit_upper_quoted, IH.
Qed.

Lemma quote_char_inj c c' r r' :
  quote_char c r = quote_char c' r' → c = c' ∧ r = r'.
Proof.
  destruct (quote_char_cases c r) as [[-> ->] | [[Hs ->] | (Hc & Hs & ->)]];
  destruct (quote_char_cases c' r')
    as [[-> ->] | [[Hs' ->] | (Hc' & Hs' & ->)]]; intros H.
  - by injection H as ->.
  - injection H as <- _. by vm_compute in Hs'.
  - discriminate H.
  - injection H as -> _. by vm_compute in Hs.
  - by injection H as -> ->.
  - injection H as -> _. by vm_compute in Hs.
  - discriminate H.
  - injection H as <- _. by vm_compute in Hs'.
  - cbn [Bytes.hex_byte] in H. injection H as H1 H2 ->.
    destruct (div16_range _ (code_range c)) as [R1 R2].
    destruct (div16_range _ (code_range c')) as [R1' R2'].
    assert (E1 : PyStr.code c / 16 = PyStr.code c' / 16)
      by (by apply hex_digit_upper_inj).
    assert (E2 : PyStr.code c mod 16 = PyStr.code c' mod 16)
      by (by apply hex_digit_upper_inj).
    split; [|done]. apply code_inj.
    rewrite (Z.div_mod (PyStr.code c) 16), (Z.div_mod (PyStr.code c') 16) by lia.
    by rewrite E1, E2.
Qed.

Lemma quote_plus_inj s s' : quote_plus s = quote_plus s' → s = s'.
Proof.
  revert s'. induction s as [|c r IH]; intros [|c' r']; cbn [quote_plus].
  - done.
  - intros H. exfalso.
    destruct (quote_char_cases c' (quote_plus r'))
      as [[_ E] | [[_ E] | (_ & _ & E)]]; rewrite E in H; discriminate H.
  - intros H. exfalso.
    destruct (quote_char_cases c (quote_plus r))
      as [[_ E] | [[_ E] | (_ & _ & E)]]; rewrite E in H; discriminate H.
  - intros H. apply quote_char_inj in H as [-> H]. by rewrite (IH _ H).
Qed.

(** Cutting at a separator that occurs in neither left part. *)
Lemma split_at_separator (P : ascii → bool) sep a b r r' :
  P sep = false →
  all_chars P a = true → all_chars P b = true →
  (a +:+ String sep r = b +:+ String sep r')%string → a = b ∧ r = r'.
Proof.
  intros Hsep. revert b.
  induction a as [|c a IH]; intros [|c' b]; simpl.
  - intros _ _ H. by injection H as ->.
  - intros _ [Hc _]%andb_true_iff H. injection H as <- _. congruence.
  - intros [Hc _]%andb_true_iff _ H. injection H as -> _. congruence.
  - intros [_ Ha]%andb_true_iff [_ Hb]%andb_true_iff H.
    injection H as -> H. by destruct (IH _ Ha Hb H) as [-> ->].
Qed.

Lemma all_chars_app (P : ascii → bool) a b :
  all_chars P (a +:+ b) = all_chars P a && all_chars P b.
Proof.
  induction a as [|c a IH]; simpl; [done|].
  by rewrite IH, andb_assoc.
Qed.

Lemma all_chars_weaken (P Q : ascii → bool) s :
  (∀ c, P c = true → Q c = true) → all_chars P s = true → all_chars Q s = true.
Proof.
  intros HPQ. induction s as [|c r IH]; cbn [all_chars]; [done|].
  intros [Hc Hr]%andb_true_iff. by rewrite (HPQ _ Hc), (IH Hr).
Qed.

Lemma encode_item_chars kv : all_chars is_item_char (encode_item kv) = true.
Proof.
  unfold encode_item. rewrite !all_chars_app. cbn [all_chars].
  assert (H : ∀ s, all_chars is_item_char (quote_plus s) = true).
  { intros s. apply (all_chars_weaken is_quoted_char); [|apply quote_plus_chars].
    intros c Hc. unfold is_item_char. by rewrite Hc. }
  by rewrite !H.
Qed.

Lemma encode_item_inj kv kv' :
  encode_item kv = encode_item kv' →
  kv.1 = kv'.1 ∧ str_of kv.2 = str_of kv'.2.
Proof.
  unfold encode_item. intros H.
  apply (split_at_separator is_quoted_char) in H as [H1 H2];
    [|reflexivity|apply quote_plus_chars|apply quote_plus_chars].
  split; by apply quote_plus_inj.
Qed.

Lemma no_separator_inside (P : ascii → bool) sep a b r :
  P sep = false → all_chars P a = true →
  a ≠ (b +:+ String sep r)%string.
Proof.
  intros Hsep Ha E. rewrite E, all_chars_app in Ha. cbn [all_chars] in Ha.
  rewrite Hsep in Ha. by rewrite andb_false_r in Ha.
Qed.

Lemma encode_item_nonempty kv : encode_item kv ≠ EmptyString.
Proof.
  unfold encode_item. destruct (quote_plus kv.1); discriminate.
Qed.

Lemma urlencode_step kv ps :
  urlencode (kv :: ps)
  = match ps with
    | [] => encode_item kv
    | _ => (encode_item kv +:+ String "&" (urlencode ps))%string
    end.
Proof. by destruct ps. Qed.

Lemma urlencode_items_inj ps ps' :
  urlencode ps = urlencode ps' → map encode_item ps = map encode_item ps'.
Proof.
  revert ps'. induction ps as [|kv ps IH]; intros [|kv' ps'].
  - done.
  - rewrite urlencode_step. intros H. exfalso. destruct ps'.
    + by apply (encode_item_nonempty kv').
    + destruct (encode_item kv'); discriminate H.
  - rewrite urlencode_step. intros H. exfalso. destruct ps.
    + by apply (encode_item_nonempty kv).
    + destruct (encode_item kv); discriminate H.
  - rewrite !urlencode_step. intros H.
    destruct ps as [|k2 ps], ps' as [|k2' ps'].
    + cbn [map]. by rewrite H.
    + exfalso. by apply (no_separator_inside is_item_char "&" _ _ _ eq_refl
                          (encode_item_chars kv)) in H.
    + exfalso. symmetry in H.
      by apply (no_separator_inside is_item_char "&" _ _ _ eq_refl
                  (encode_item_chars kv')) in H.
    + apply (split_at_separator is_item_char) in H as [H1 H2];
        [|reflexivity|apply encode_item_chars|apply encode_item_chars].
      change (encode_item kv :: map encode_item (k2 :: ps)
              = encode_item kv' :: map encode_item (k2' :: ps')).
      rewrite H1. f_equal. by apply IH.
Qed.

(** X19. The message that [_generate_signature] signs determines the
    parameters and their order: two parameter lists with the same encoded
    query string have the same keys and the same values as strings, in the
    same order.  Hence reordering parameters changes the signed message
    unless the reordered items are equal. *)
Theorem signed_message_determines_params ps ps' :
  urlencode ps = urlencode ps' →
  map (λ kv, (kv.1, str_of kv.2)) ps = map (λ kv, (kv.1, str_of kv.2)) ps'.
Proof.
  intros H. apply urlencode_items_inj in H. revert ps' H.
  induction ps as [|kv ps IH]; intros [|kv' ps']; try done.
  cbn [map]. intros [= H1 H2]. apply encode_item_inj in H1 as [-> ->].
  f_equal. by apply IH.
Qed.

Lemma signed_message_determines_params_witness :
  map (λ kv : string * qval, (kv.1, str_of kv.2)) [("a", QInt 1); ("b c", QStr "x&y")]
  = map (λ kv : string * qval, (kv.1, str_of kv.2)) [("a", QStr "1"); ("b c", QStr "x&y")].
Proof.
  apply signed_message_determines_params. vm_compute. reflexivity.
Defined.
